(** * DTN trace ingestion: a shallow embedding of the two visualisation scripts

    The development follows [scripts/dtn-network-visualizer.py] (class
    [DTNNetworkVisualizer], module [Visualizer] below) and
    [scripts/dtn-visualization-scripts.py] (class [DTNVisualizationFramework],
    module [Framework] below).

    - Python [str] values are Rocq strings; a character stands for the code
      point of the same number (0..255).
    - Python [float] is IEEE 754 binary64, taken from [SpecFloat] with
      [prec = 53] and [emax = 1024]; every operation rounds to nearest even.
    - Python [dict] is a [gmap]; the scripts never rely on insertion order
      for what is proved here.
    - Exceptions are values: a statement either finishes ([Ok]) or raises
      ([Raise]); an object mutated before the raise keeps its mutations.
    - [print] calls write to the terminal and change nothing else; they are
      left out.  pandas' CSV reader and numpy's sine, cosine and random
      draws are parameters of the definitions that call them. *)

From Stdlib Require Import ZArith String Ascii List Bool Lia.
From Stdlib Require Import Floats.SpecFloat.
From stdpp Require Import gmap strings.

Import ListNotations.
Local Open Scope Z_scope.

(** ** Python builtins used by the scripts *)

Module Py.

(** *** Exceptions and outcomes *)

Inductive exn : Type :=
  | ValueError | IndexError | OverflowError | KeyError | OSError.

Inductive outcome (A : Type) : Type :=
  | Ok (a : A)
  | Raise (e : exn).
Arguments Ok {A} a.
Arguments Raise {A} e.

Definition obind {A B} (o : outcome A) (k : A -> outcome B) : outcome B :=
  match o with
  | Ok a => k a
  | Raise e => Raise e
  end.

(** *** str methods *)

(** [str.isspace] on the code points below 256: TAB..CR, FS..US, space,
    NEL (0x85) and NBSP (0xA0). *)
Definition isspace (c : ascii) : bool :=
  let n := Z.of_N (N_of_ascii c) in
  ((9 <=? n) && (n <=? 13)) || ((28 <=? n) && (n <=? 32))
  || (n =? 133) || (n =? 160).

Fixpoint lstrip (s : string) : string :=
  match s with
  | EmptyString => EmptyString
  | String c r => if isspace c then lstrip r else s
  end.

Fixpoint rstrip (s : string) : string :=
  match s with
  | EmptyString => EmptyString
  | String c r =>
      match rstrip r with
      | EmptyString => if isspace c then EmptyString else String c EmptyString
      | r' => String c r'
      end
  end.

(** [s.strip()] *)
Definition strip (s : string) : string := rstrip (lstrip s).

(** [s.split(sep)] for a one-character separator: never the empty list. *)
Fixpoint split (sep : ascii) (s : string) : list string :=
  match s with
  | EmptyString => [EmptyString]
  | String c r =>
      if Ascii.eqb c sep then EmptyString :: split sep r
      else match split sep r with
           | f :: fs => String c f :: fs
           | [] => [String c EmptyString]
           end
  end.

(** [c in s] for a one-character [c] *)
Fixpoint contains_char (c : ascii) (s : string) : bool :=
  match s with
  | EmptyString => false
  | String d r => Ascii.eqb d c || contains_char c r
  end.

(** [s.startswith(p)] *)
Fixpoint startswith (s p : string) {struct p} : bool :=
  match p, s with
  | EmptyString, _ => true
  | String _ _, EmptyString => false
  | String a p', String b s' => Ascii.eqb a b && startswith s' p'
  end.

(** [sub in s] *)
Fixpoint contains (sub s : string) : bool :=
  startswith s sub ||
  match s with
  | EmptyString => false
  | String _ r => contains sub r
  end.

(** [parts[i]]: IndexError out of range (only non-negative indices are used) *)
Definition index (parts : list string) (i : nat) : outcome string :=
  match nth_error parts i with
  | Some p => Ok p
  | None => Raise IndexError
  end.

(** *** Numbers *)

Abbreviation prec := 53 (only parsing).
Abbreviation emax := 1024 (only parsing).

(** binary64 *)
Definition float : Type := spec_float.

(** A Python number held in a dict field: the scripts store [int] and
    [float] values under the same keys. *)
Inductive num : Type :=
  | PyInt (z : Z)
  | PyFloat (f : float).

(** [float(z)] for an integer [z] (exact below 2^53, rounded above) *)
Definition of_Z (z : Z) : float := binary_normalize prec emax z 0 false.

(** The binary64 nearest to [m * 10^e10], [m >= 0], with sign [neg]; this is
    what a decimal literal and [float(str)] denote. *)
Definition of_decimal (neg : bool) (m e10 : Z) : float :=
  if m =? 0 then S754_zero neg
  else if 0 <=? e10 then
    binary_normalize prec emax (cond_Zopp neg (m * 10 ^ e10)) 0 neg
  else
    let '(q, e, l) := SFdiv_core_binary prec emax m 0 (10 ^ (- e10)) 0 in
    binary_round_aux prec emax neg q e l.

Definition to_float (n : num) : float :=
  match n with
  | PyInt z => of_Z z
  | PyFloat f => f
  end.

Definition fadd : float -> float -> float := SFadd prec emax.
Definition fsub : float -> float -> float := SFsub prec emax.
Definition fmul : float -> float -> float := SFmul prec emax.
Definition fdiv : float -> float -> float := SFdiv prec emax.
Definition fsqrt : float -> float := SFsqrt prec emax.
Definition flt : float -> float -> bool := SFltb.
Definition fle : float -> float -> bool := SFleb.

(** [a - b], [a * b], [a / b], [a < b] on Python numbers.  A mixed
    operation converts the int operand to float first; the scripts only mix
    floats with small integer constants, for which that conversion is exact.
    [/] is true division and always gives a float (the divisors in the
    scripts are non-zero constants). *)
Definition sub (a b : num) : num :=
  match a, b with
  | PyInt x, PyInt y => PyInt (x - y)
  | _, _ => PyFloat (fsub (to_float a) (to_float b))
  end.

Definition add (a b : num) : num :=
  match a, b with
  | PyInt x, PyInt y => PyInt (x + y)
  | _, _ => PyFloat (fadd (to_float a) (to_float b))
  end.

Definition mul (a b : num) : num :=
  match a, b with
  | PyInt x, PyInt y => PyInt (x * y)
  | _, _ => PyFloat (fmul (to_float a) (to_float b))
  end.

Definition truediv (a b : num) : num :=
  PyFloat (fdiv (to_float a) (to_float b)).

Definition lt (a b : num) : bool :=
  match a, b with
  | PyInt x, PyInt y => x <? y
  | _, _ => flt (to_float a) (to_float b)
  end.

Definition le (a b : num) : bool :=
  match a, b with
  | PyInt x, PyInt y => x <=? y
  | _, _ => fle (to_float a) (to_float b)
  end.

(** [min(a, b)]: [b] when [b < a], else [a] *)
Definition min (a b : num) : num := if lt b a then b else a.

(** *** int(str) and float(str) *)

(** The white space that [int(s)] and [float(s)] skip at both ends of a
    str is narrower than that of [str.strip]: TAB..CR and space, and NEL
    (0x85) and NBSP (0xA0), which the conversion first turns into spaces.
    FS..US (0x1C..0x1F) are not skipped: [int("5\x1c")] is a ValueError. *)
Definition isspace_number (c : ascii) : bool :=
  let n := Z.of_N (N_of_ascii c) in
  ((9 <=? n) && (n <=? 13)) || (n =? 32) || (n =? 133) || (n =? 160).

Fixpoint lstrip_number (s : string) : string :=
  match s with
  | EmptyString => EmptyString
  | String c r => if isspace_number c then lstrip_number r else s
  end.

Fixpoint rstrip_number (s : string) : string :=
  match s with
  | EmptyString => EmptyString
  | String c r =>
      match rstrip_number r with
      | EmptyString => if isspace_number c then EmptyString else String c EmptyString
      | r' => String c r'
      end
  end.

Definition strip_number (s : string) : string := rstrip_number (lstrip_number s).

(** [sys.int_max_str_digits], at its default: [int(s)] refuses a str of
    more digits (underscores, sign and white space not counted). *)
Definition int_max_str_digits : Z := 4300.

Definition digit_of (c : ascii) : option Z :=
  let n := Z.of_N (N_of_ascii c) in
  if (48 <=? n) && (n <=? 57) then Some (n - 48) else None.

(** The rest of a digit part [digit (["_"] digit)*] after its first digit:
    value so far, digits read so far, and the unread suffix. *)
Fixpoint digits_tail (s : string) (acc cnt : Z) : Z * Z * string :=
  match s with
  | EmptyString => (acc, cnt, s)
  | String c r =>
      match digit_of c with
      | Some d => digits_tail r (10 * acc + d) (cnt + 1)
      | None =>
          if Ascii.eqb c "_" then
            match r with
            | String c' r' =>
                match digit_of c' with
                | Some d => digits_tail r' (10 * acc + d) (cnt + 1)
                | None => (acc, cnt, s)
                end
            | EmptyString => (acc, cnt, s)
            end
          else (acc, cnt, s)
      end
  end.

(** A digit part read on top of the digits [acc] already read *)
Definition digitpart_from (acc : Z) (s : string) : option (Z * Z * string) :=
  match s with
  | String c r =>
      match digit_of c with
      | Some d => Some (digits_tail r (10 * acc + d) 1)
      | None => None
      end
  | EmptyString => None
  end.

Definition digitpart (s : string) : option (Z * Z * string) :=
  digitpart_from 0 s.

(** An optional sign: [true] for "-" *)
Definition sign (s : string) : bool * string :=
  match s with
  | String c r =>
      if Ascii.eqb c "-" then (true, r)
      else if Ascii.eqb c "+" then (false, r)
      else (false, s)
  | EmptyString => (false, s)
  end.

(** [int(s)] for a str [s], base 10: surrounding white space, a sign,
    digits with single underscores between them, at most
    [int_max_str_digits] digits; ValueError otherwise. *)
Definition int (s : string) : outcome Z :=
  let '(neg, body) := sign (strip_number s) in
  match digitpart body with
  | Some (v, cnt, EmptyString) =>
      if cnt <=? int_max_str_digits then Ok (cond_Zopp neg v) else Raise ValueError
  | _ => Raise ValueError
  end.

Definition lower (c : ascii) : ascii :=
  let n := N_of_ascii c in
  if ((65 <=? n) && (n <=? 90))%N then ascii_of_N (n + 32) else c.

Fixpoint lowercase (s : string) : string :=
  match s with
  | EmptyString => EmptyString
  | String c r => String (lower c) (lowercase r)
  end.

(** [number ::= [digitpart] "." digitpart | digitpart ["."]]: the digits as
    one integer, the count of fraction digits, and the unread suffix. *)
Definition number (s : string) : option (Z * Z * string) :=
  match digitpart s with
  | Some (ip, _, String "." r2) =>
      match digitpart_from ip r2 with
      | Some (m, nf, r3) => Some (m, nf, r3)
      | None => Some (ip, 0, r2)
      end
  | Some (ip, _, r1) => Some (ip, 0, r1)
  | None =>
      match s with
      | String "." r2 => digitpart r2
      | _ => None
      end
  end.

(** [exponent ::= ("e" | "E") [sign] digitpart], up to the end of the string *)
Definition exponent (s : string) : option Z :=
  match s with
  | EmptyString => Some 0
  | String c r =>
      if Ascii.eqb (lower c) "e" then
        let '(neg, body) := sign r in
        match digitpart body with
        | Some (v, _, EmptyString) => Some (cond_Zopp neg v)
        | _ => None
        end
      else None
  end.

(** [float(s)] for a str [s]: surrounding white space, a sign, then "inf",
    "infinity" or "nan" in any case, or a decimal number with an optional
    exponent, rounded to the nearest binary64; ValueError otherwise. *)
Definition float_of_str (s : string) : outcome float :=
  let '(neg, body) := sign (strip_number s) in
  let low := lowercase body in
  if String.eqb low "inf" || String.eqb low "infinity" then Ok (S754_infinity neg)
  else if String.eqb low "nan" then Ok S754_nan
  else
    match number body with
    | Some (m, nf, r) =>
        match exponent r with
        | Some e => Ok (of_decimal neg m (e - nf))
        | None => Raise ValueError
        end
    | None => Raise ValueError
    end.

(** [int(f)] for a float [f]: truncation toward zero *)
Definition int_of_float (f : float) : outcome Z :=
  match f with
  | S754_nan => Raise ValueError
  | S754_infinity _ => Raise OverflowError
  | S754_zero _ => Ok 0
  | S754_finite s m e =>
      Ok (cond_Zopp s (if 0 <=? e then Zpos m * 2 ^ e else Zpos m / 2 ^ (- e)))
  end.

End Py.


(** ** Statements: a state and exception monad

    A method body is a function from the object's state to the state it
    leaves and either a value or the exception raised.  The state comes back
    in both cases: [self.node_positions[k] = v] done before a raise stays
    done. *)

Module Stmt.
Import Py.

Section Monad.
Context {St : Type}.

Definition M (A : Type) : Type := St -> St * outcome A.

Definition ret {A} (a : A) : M A := fun s => (s, Ok a).

Definition raise {A} (e : exn) : M A := fun s => (s, Raise e).

Definition bind {A B} (m : M A) (k : A -> M B) : M B :=
  fun s =>
    match m s with
    | (s', Ok a) => k a s'
    | (s', Raise e) => (s', Raise e)
    end.

(** An expression that may raise but touches no state *)
Definition lift {A} (o : outcome A) : M A := fun s => (s, o).

Definition get : M St := fun s => (s, Ok s).

Definition modify (f : St -> St) : M unit := fun s => (f s, Ok tt).

(** [try: body except Exception as e: handler(e)] *)
Definition try_except {A} (body : M A) (handler : exn -> M A) : M A :=
  fun s =>
    match body s with
    | (s', Ok a) => (s', Ok a)
    | (s', Raise e) => handler e s'
    end.

(** [for x in xs: body], with the loop's local variables [l] threaded
    through; [continue] is returning them. *)
Fixpoint for_fold {A L} (xs : list A) (l : L) (body : A -> L -> M L) : M L :=
  match xs with
  | [] => ret l
  | x :: rest => bind (body x l) (fun l' => for_fold rest l' body)
  end.

Definition for_each {A} (xs : list A) (body : A -> M unit) : M unit :=
  for_fold xs tt (fun x _ => body x).
End Monad.

Arguments M : clear implicits.

Declare Scope stmt_scope.
Delimit Scope stmt_scope with stmt.
Notation "x <- m ;; k" := (bind m (fun x => k))
  (at level 100, m at next level, right associativity) : stmt_scope.
Notation "m ;; k" := (bind m (fun _ => k))
  (at level 100, right associativity) : stmt_scope.

End Stmt.

(** ** scripts/dtn-network-visualizer.py: class DTNNetworkVisualizer *)

Module Visualizer.
Import Py Stmt.
Local Open Scope stmt_scope.

(** One value of [self.node_positions] *)
Record node : Type := Node {
  x : num;
  y : num;
  type : Z;
  is_mobile : bool
}.

(** A cell of a message-flow record *)
Inductive value : Type :=
  | VNum (n : num)
  | VStr (s : string).

Record state : Type := State {
  node_positions : gmap Z node;
  message_flows : list (gmap string value);
  performance_data : gmap string num
}.

(** [__init__] before it calls [load_simulation_data] *)
Definition init : state := State ∅ [] ∅.

Definition set_node_positions (f : gmap Z node -> gmap Z node) (s : state) : state :=
  State (f (node_positions s)) (message_flows s) (performance_data s).

Definition set_message_flows
    (f : list (gmap string value) -> list (gmap string value)) (s : state) : state :=
  State (node_positions s) (f (message_flows s)) (performance_data s).

Definition set_performance_data
    (f : gmap string num -> gmap string num) (s : state) : state :=
  State (node_positions s) (message_flows s) (f (performance_data s)).

(** A file of the working directory, as [os.path.exists] and [open] find it
    once the two [cp] commands have run. *)
Inductive file : Type :=
  | Absent
  | Unreadable
  | Content (text : string).

Record files : Type := Files {
  performance_txt : file;   (* dtn-optimized-performance.txt *)
  flow_txt : file           (* message-flow-tracking.txt *)
}.

(** [with open(name) as f: content = f.read()], guarded by [os.path.exists];
    [None] when the file does not exist. *)
Definition read_if_exists (f : file) : M state (option string) :=
  match f with
  | Absent => ret None
  | Unreadable => raise OSError
  | Content text => ret (Some text)
  end.

(** Lines 72-80: the body of [if len(parts) >= 5] *)
Definition node_record (parts : list string) : M state unit :=
  node_id <- lift (obind (index parts 0) int) ;;
  node_type <- lift (obind (index parts 1) int) ;;
  x <- lift (obind (index parts 2) float_of_str) ;;
  y <- lift (obind (index parts 3) float_of_str) ;;
  modify (set_node_positions
            (insert node_id (Node (PyFloat x) (PyFloat y) node_type (node_type <? 4)))).

(** Lines 66-80: one turn of the loop; the result is [position_section] *)
Definition position_step (line : string) (position_section : bool) : M state bool :=
  if String.eqb (strip line) "NODE_POSITIONS" then ret true
  else if position_section && contains_char "," line
          && negb (startswith line "NodeID") then
    let parts := split "," (strip line) in
    if (5 <=? length parts)%nat then
      node_record parts ;; ret position_section
    else ret position_section
  else ret position_section.

Definition load_node_positions (fs : files) : M state unit :=
  try_except
    (c <- read_if_exists (performance_txt fs) ;;
     match c with
     | Some content =>
         let lines := split "010" content in
         for_fold lines false position_step ;; ret tt
     | None => ret tt
     end)
    (fun _ => ret tt).

(** [pd.read_csv(...)] followed by [df.to_dict('records')] is pandas code;
    [read_csv] stands for it. *)
Definition load_message_flows
    (read_csv : string -> outcome (list (gmap string value))) (fs : files) : M state unit :=
  try_except
    (match flow_txt fs with
     | Absent => ret tt
     | Unreadable => raise OSError
     | Content text =>
         records <- lift (read_csv text) ;;
         modify (set_message_flows (fun _ => records))
     end)
    (fun _ => ret tt).

(** [line.split(',')[1]] *)
Definition second_field (line : string) : outcome string :=
  index (split "," line) 1.

(** Lines 106-111: one turn of the summary loop *)
Definition metrics_step (line : string) : M state unit :=
  if contains "AverageDelay" line then
    v <- lift (obind (second_field line) float_of_str) ;;
    modify (set_performance_data (insert "avg_delay" (PyFloat v)))
  else if contains "AverageThroughput" line then
    v <- lift (obind (second_field line) float_of_str) ;;
    modify (set_performance_data (insert "avg_throughput" (PyFloat v)))
  else if contains "TotalFlows" line then
    v <- lift (obind (second_field line) int) ;;
    modify (set_performance_data (insert "total_flows" (PyInt v)))
  else ret tt.

Definition load_performance_metrics (fs : files) : M state unit :=
  try_except
    (c <- read_if_exists (performance_txt fs) ;;
     match c with
     | Some content => for_each (split "010" content) metrics_step
     | None => ret tt
     end)
    (fun _ => ret tt).

(** [range(n)] *)
Definition range (n : nat) : list Z := map Z.of_nat (seq 0 n).

(** Lines 122-138.  [rand k] is the [k]-th value that
    [np.random.uniform(0, 1500)] returns; the loop's local [k] counts the
    draws made so far. *)
Definition sample_node (rand : nat -> float) (i : Z) (k : nat) : M state nat :=
  let node_type := i mod 8 in
  let is_mobile := node_type <? 4 in
  if is_mobile then
    modify (set_node_positions
              (insert i (Node (PyFloat (rand k)) (PyFloat (rand (S k))) node_type is_mobile))) ;;
    ret (S (S k))
  else
    let grid_x := (i / 8) * 250 in
    let grid_y := (i mod 8) * 200 in
    modify (set_node_positions
              (insert i (Node (PyInt grid_x) (PyInt grid_y) node_type is_mobile))) ;;
    ret k.

(** Lines 142-149 *)
Definition sample_flow (i : Z) : gmap string value :=
  <[ "Time(s)" := VNum (mul (PyInt i) (PyFloat (of_decimal false 20 (-1)))) ]>
  (<[ "BundleID" := VNum (PyInt i) ]>
  (<[ "FromNode" := VNum (PyInt (i mod 120)) ]>
  (<[ "ToNode" := VNum (PyInt ((i + 60) mod 120)) ]>
  (<[ "Action" := VStr "FORWARDED" ]>
  (<[ "NodeType" := VNum (PyInt ((i mod 120) mod 8)) ]> ∅))))).

(** Lines 151-155 *)
Definition sample_performance : gmap string num :=
  <[ "avg_delay" := PyFloat (of_decimal false 452 (-1)) ]>
  (<[ "avg_throughput" := PyFloat (of_decimal false 1258 (-1)) ]>
  (<[ "total_flows" := PyInt 50 ]> ∅)).

Definition generate_sample_data (rand : nat -> float) : M state unit :=
  for_fold (range 120) 0%nat (sample_node rand) ;;
  for_each (range 50)
    (fun i => modify (set_message_flows (fun fl => fl ++ [sample_flow i]))) ;;
  modify (set_performance_data (fun _ => sample_performance)).

(** Lines 40-53.  The two [os.system] calls return a status and raise
    nothing; their effect is already in [fs]. *)
Definition load_simulation_data
    (read_csv : string -> outcome (list (gmap string value)))
    (rand : nat -> float) (fs : files) : M state unit :=
  try_except
    (load_node_positions fs ;;
     load_message_flows read_csv fs ;;
     load_performance_metrics fs)
    (fun _ => generate_sample_data rand).

(** The dataset a fresh [DTNNetworkVisualizer()] holds *)
Definition dataset
    (read_csv : string -> outcome (list (gmap string value)))
    (rand : nat -> float) (fs : files) : state :=
  fst (load_simulation_data read_csv rand fs init).

(** *** Lines 327-339: the coverage grid of [create_performance_dashboard] *)

(** [np.linspace(start, stop, num)] for [num >= 2] and [start <> stop]:
    [arange(num) * step + start] with the last point set to [stop]. *)
Definition linspace (start stop : float) (num : nat) : list float :=
  let div := Z.of_nat num - 1 in
  let step := fdiv (fsub stop start) (of_Z div) in
  map (fun i => if i =? div then stop else fadd (fmul (of_Z i) step) start)
      (range num).

(** [np.sqrt((x - node_data['x'])**2 + (y - node_data['y'])**2)]; the square
    is taken as the correctly rounded product. *)
Definition distance (x y : float) (node_data : node) : float :=
  let dx := fsub x (to_float node_data.(Visualizer.x)) in
  let dy := fsub y (to_float node_data.(Visualizer.y)) in
  fsqrt (fadd (fmul dx dx) (fmul dy dy)).

(** Lines 334-338 with the literal 250 of line 337 as the parameter
    [comm_range]: the value of [coverage] after the inner loop.
    [.values()] is walked in the map's own order, which a count ignores. *)
Definition coverage_at (comm_range : float) (nodes : gmap Z node) (x y : float) : Z :=
  fold_left
    (fun coverage node_data =>
       if flt (distance x y node_data) comm_range then coverage + 1 else coverage)
    (map snd (map_to_list nodes)) 0.

(** The literal of line 337 *)
Definition communication_range : float := of_Z 250.

(** [coverage_matrix[j, i]]: row [j] is [y_range[j]], column [i] is
    [x_range[i]]; the int count is stored into a float64 array. *)
Definition coverage_matrix (nodes : gmap Z node) : list (list float) :=
  let x_range := linspace (of_Z 0) (of_Z 1500) 20 in
  let y_range := linspace (of_Z 0) (of_Z 1500) 20 in
  map (fun y =>
         map (fun x => of_Z (coverage_at communication_range nodes x y)) x_range)
      y_range.

End Visualizer.

(** ** scripts/dtn-visualization-scripts.py: class DTNVisualizationFramework *)

Module Framework.
Import Py Stmt.
Local Open Scope stmt_scope.

(** One value of [self.performance_data] *)
Record metrics : Type := Metrics {
  delay : num;
  bandwidth : num;
  response : num;
  data_loss : num;
  energy : num;
  scalability : num
}.

(** One element of [self.time_series_data] *)
Record sample : Type := Sample {
  time : num;
  ts_delay : num;         (* 'delay' *)
  throughput : num;
  packet_loss : num;
  active_nodes : num
}.

Record state : Type := State {
  performance_data : gmap string metrics;
  time_series_data : list sample
}.

(** [__init__] before it calls [load_simulation_data] *)
Definition init : state := State ∅ [].

Definition protocols : list string :=
  ["OurDTN"; "Epidemic"; "PROPHET"; "SprayAndWait"].

Definition set_performance_data
    (f : gmap string metrics -> gmap string metrics) (s : state) : state :=
  State (f (performance_data s)) (time_series_data s).

Definition set_time_series_data (f : list sample -> list sample) (s : state) : state :=
  State (performance_data s) (f (time_series_data s)).

(** Lines 63-77: the body of [if len(parts) >= 5] in the metrics loop *)
Definition metrics_record (parts : list string) : M state unit :=
  protocol <- lift (index parts 0) ;;
  delay <- lift (obind (index parts 1) float_of_str) ;;
  throughput <- lift (obind (index parts 2) float_of_str) ;;
  delivery_ratio <- lift (obind (index parts 3) float_of_str) ;;
  energy_efficiency <- lift (obind (index parts 4) float_of_str) ;;
  modify (set_performance_data
            (insert protocol
               (Metrics (PyFloat delay)
                        (mul (PyFloat throughput) (PyInt 10))
                        (mul (PyFloat delay) (PyFloat (of_decimal false 8 (-1))))
                        (sub (PyInt 100) (PyFloat delivery_ratio))
                        (sub (PyFloat (of_decimal false 10 (-1))) (PyFloat energy_efficiency))
                        (mul (PyFloat delivery_ratio) (PyInt 100))))).

(** Lines 53-77: one turn of the first loop; the result is [dtn_section] *)
Definition dtn_step (line : string) (dtn_section : bool) : M state bool :=
  if String.eqb (strip line) "DTN_METRICS" then ret true
  else if startswith (strip line) "NODE_PERFORMANCE" then ret false
  else if dtn_section && contains_char "," line
          && negb (startswith line "Protocol") then
    let parts := split "," (strip line) in
    if (5 <=? length parts)%nat then
      metrics_record parts ;; ret dtn_section
    else ret dtn_section
  else ret dtn_section.

(** Lines 89-95: the body of [if len(parts) >= 5] in the time-series loop *)
Definition sample_record (parts : list string) : M state unit :=
  time <- lift (obind (index parts 0) float_of_str) ;;
  delay <- lift (obind (index parts 1) float_of_str) ;;
  throughput <- lift (obind (index parts 2) float_of_str) ;;
  packet_loss <- lift (obind (index parts 3) float_of_str) ;;
  active_nodes <- lift (obind (obind (index parts 4) float_of_str) int_of_float) ;;
  modify (set_time_series_data
            (fun ts => ts ++ [Sample (PyFloat time) (PyFloat delay) (PyFloat throughput)
                                     (PyFloat packet_loss) (PyInt active_nodes)])).

(** Lines 83-95: one turn of the second loop; the result is
    [time_series_section] *)
Definition time_series_step (line : string) (time_series_section : bool) : M state bool :=
  if String.eqb (strip line) "TIME_SERIES_DATA" then ret true
  else if time_series_section && contains_char "," line
          && negb (startswith line "Time") then
    let parts := split "," (strip line) in
    if (5 <=? length parts)%nat then
      sample_record parts ;; ret time_series_section
    else ret time_series_section
  else ret time_series_section.

(** Lines 105-110 *)
Definition default_performance_data : gmap string metrics :=
  <[ "OurDTN" := Metrics (PyInt 25) (PyInt 14) (PyInt 20) (PyInt 15)
                         (PyFloat (of_decimal false 1 (-1))) (PyInt 850) ]>
  (<[ "Epidemic" := Metrics (PyInt 65) (PyInt 6) (PyInt 52) (PyInt 40)
                            (PyFloat (of_decimal false 4 (-1))) (PyInt 600) ]>
  (<[ "PROPHET" := Metrics (PyInt 42) (PyInt 12) (PyInt 34) (PyInt 25)
                           (PyFloat (of_decimal false 2 (-1))) (PyInt 750) ]>
  (<[ "SprayAndWait" := Metrics (PyInt 51) (PyInt 10) (PyInt 41) (PyInt 30)
                                (PyFloat (of_decimal false 25 (-2))) (PyInt 700) ]> ∅))).

(** Lines 115-121, for one [t]; [np_sin] and [np_cos] stand for numpy's
    sine and cosine on float64. *)
Definition default_sample (np_sin np_cos : float -> float) (t : Z) : sample :=
  let at_rate (m e : Z) := fmul (of_Z t) (of_decimal false m e) in
  Sample (PyInt t)
         (add (PyInt 35) (mul (PyInt 15) (PyFloat (np_sin (at_rate 1 (-2))))))
         (add (PyInt 8) (mul (PyInt 4) (PyFloat (np_cos (at_rate 8 (-3))))))
         (add (PyInt 20) (mul (PyInt 10) (PyFloat (np_sin (at_rate 12 (-3))))))
         (add (PyInt 40) (mul (PyInt 10) (PyFloat (np_cos (at_rate 5 (-3)))))).

(** [range(0, 600, 30)] *)
Definition default_times : list Z := map (fun k => 30 * Z.of_nat k) (seq 0 20).

(** Lines 103-123 *)
Definition use_default_data (np_sin np_cos : float -> float) : M state unit :=
  modify (set_performance_data (fun _ => default_performance_data)) ;;
  modify (set_time_series_data (fun _ => [])) ;;
  for_each default_times
    (fun t => modify (set_time_series_data (fun ts => ts ++ [default_sample np_sin np_cos t]))).

(** Lines 46-101 *)
Definition parse_simulation_data
    (np_sin np_cos : float -> float) (content : string) : M state unit :=
  let lines := split "010" content in
  for_fold lines false dtn_step ;;
  modify (set_time_series_data (fun _ => [])) ;;
  for_fold lines false time_series_step ;;
  s <- get ;;
  if decide (performance_data s = ∅) then use_default_data np_sin np_cos
  else ret tt.

(** The file dtn-performance-stats.txt of the working directory *)
Inductive file : Type :=
  | Absent
  | Unreadable
  | Content (text : string).

(** Lines 32-44 *)
Definition load_simulation_data
    (np_sin np_cos : float -> float) (stats_txt : file) : M state unit :=
  try_except
    (match stats_txt with
     | Content content => parse_simulation_data np_sin np_cos content
     | Unreadable => raise OSError
     | Absent => use_default_data np_sin np_cos
     end)
    (fun _ => use_default_data np_sin np_cos).

(** The dataset a fresh [DTNVisualizationFramework()] holds *)
Definition dataset (np_sin np_cos : float -> float) (stats_txt : file) : state :=
  fst (load_simulation_data np_sin np_cos stats_txt init).

(** Lines 179-186: the six radar scores of one protocol *)
Definition delay_score (data : metrics) : num :=
  sub (PyInt 100) (truediv (delay data) (PyInt 20)).
Definition bandwidth_score (data : metrics) : num := bandwidth data.
Definition response_score (data : metrics) : num :=
  sub (PyInt 100) (truediv (response data) (PyInt 5)).
Definition data_loss_score (data : metrics) : num :=
  sub (PyInt 100) (mul (data_loss data) (PyInt 5)).
Definition energy_score (data : metrics) : num :=
  sub (PyInt 100) (mul (energy data) (PyInt 1000)).
Definition scalability_score (data : metrics) : num :=
  min (PyInt 100) (truediv (scalability data) (PyInt 100)).

Definition radar_values (data : metrics) : list num :=
  [ delay_score data; bandwidth_score data; response_score data;
    data_loss_score data; energy_score data; scalability_score data ].

(** Lines 176-186: [self.performance_data[protocol]] raises KeyError for a
    protocol that no row supplied. *)
Definition radar_chart (s : state) : outcome (list (string * list num)) :=
  fold_right
    (fun protocol rest =>
       match performance_data s !! protocol with
       | Some data => obind rest (fun r => Ok ((protocol, radar_values data) :: r))
       | None => Raise KeyError
       end)
    (Ok []) protocols.

End Framework.

(** ** scripts/dtn-network-visualizer.py: what the charts and the report
    compute from the dataset *)

Module Views.
Import Py Stmt Visualizer.

(** One value of [self.node_types] (lines 28-37) *)
Record type_info : Type := TypeInfo {
  name : string;
  color : string;
  marker_size : Z      (* 'size' *)
}.

Definition node_types : gmap Z type_info :=
  list_to_map
    [ (0, TypeInfo "Emergency" "#FF0000" 8);
      (1, TypeInfo "Civilian" "#00FF00" 6);
      (2, TypeInfo "Vehicle" "#FFA500" 10);
      (3, TypeInfo "Drone" "#800080" 5);
      (4, TypeInfo "Tower" "#0000FF" 15);
      (5, TypeInfo "Gateway" "#00FFFF" 12);
      (6, TypeInfo "Sensor" "#FFFF00" 4);
      (7, TypeInfo "Relay" "#FFC0CB" 8) ].

(** [self.node_types[t]['name']]: KeyError for a type outside the table *)
Definition type_name (t : Z) : outcome string :=
  match node_types !! t with
  | Some info => Ok (name info)
  | None => Raise KeyError
  end.

(** [self.node_positions.values()], in the map's own order *)
Definition values (nodes : gmap Z node) : list node := map snd (map_to_list nodes).

(** [counts[k] = counts.get(k, 0) + 1] *)
Definition tally (k : string) (counts : gmap string Z) : gmap string Z :=
  <[ k := default 0 (counts !! k) + 1 ]> counts.

(** Lines 302-306 and 442-445: [node_type_counts] over a list of nodes; the
    first node whose type has no name ends the loop with KeyError. *)
Definition count_types (l : list node) : outcome (gmap string Z) :=
  fold_left
    (fun acc data =>
       obind acc (fun counts =>
       obind (type_name (type data)) (fun type_name => Ok (tally type_name counts))))
    l (Ok ∅).

Definition node_type_counts (nodes : gmap Z node) : outcome (gmap string Z) :=
  count_types (values nodes).

(** [sum(1 for data in ... if p(data))] *)
Definition count_if (p : node -> bool) (l : list node) : Z :=
  fold_left (fun n data => if p data then n + 1 else n) l 0.

(** Lines 364-365 *)
Definition mobile_count (nodes : gmap Z node) : Z := count_if is_mobile (values nodes).
Definition static_count (nodes : gmap Z node) : Z :=
  Z.of_nat (size nodes) - mobile_count nodes.

(** Lines 434-436: the three numbers of the report's overview *)
Definition report_overview (nodes : gmap Z node) : Z * Z * Z :=
  (Z.of_nat (size nodes),
   count_if is_mobile (values nodes),
   count_if (fun data => negb (is_mobile data)) (values nodes)).

(** Lines 288-292: the three bars, with the defaults of [.get] *)
Definition dashboard_values (perf : gmap string num) : list num :=
  [ default (PyFloat (of_decimal false 452 (-1))) (perf !! "avg_delay");
    default (PyFloat (of_decimal false 1258 (-1))) (perf !! "avg_throughput");
    default (PyInt 50) (perf !! "total_flows") ].

(** [v ** 2] on a Python number: an int stays an int; a finite float whose
    square is out of range raises OverflowError (as [1e200 ** 2] does);
    otherwise the float square is taken as the correctly rounded product. *)
Definition square (v : num) : outcome num :=
  match v with
  | PyInt z => Ok (PyInt (z * z))
  | PyFloat f =>
      match f, fmul f f with
      | S754_finite _ _ _, S754_infinity _ => Raise OverflowError
      | _, p => Ok (PyFloat p)
      end
  end.

(** Line 194: [np.sqrt((x2-x1)**2 + (y2-y1)**2)] between two nodes; the
    square of the x difference is taken first. *)
Definition node_distance (n1 n2 : node) : outcome float :=
  obind (square (sub (x n2) (x n1))) (fun dx2 =>
  obind (square (sub (y n2) (y n1))) (fun dy2 =>
  Ok (fsqrt (to_float (add dx2 dy2))))).

(** [range(start, stop, step)] for a positive step *)
Definition range_step (start stop step : Z) : list Z :=
  map (fun k => start + step * k) (seqZ 0 ((stop - start + step - 1) / step)).

(** Lines 189-203: the body of the inner loop.  The state is the list of
    the pairs [(i, j)] whose link has been added to the figure so far. *)
Definition link_step (nodes : gmap Z node) (i j : Z) : M (list (Z * Z)) unit :=
  match nodes !! i, nodes !! j with
  | Some n1, Some n2 =>
      bind (lift (node_distance n1 n2)) (fun distance =>
      if flt distance (of_Z 300)
      then modify (fun links => links ++ [(i, j)])
      else ret tt)
  | _, _ => ret tt
  end.

(** Lines 187-203: the two loops; an exception of [distance] leaves both
    with the links drawn before it. *)
Definition topology_links (nodes : gmap Z node) : M (list (Z * Z)) unit :=
  let len := Z.of_nat (size nodes) in
  for_each (range_step 0 (Z.min len 50) 5)
    (fun i =>
       for_each (seqZ (i + 1) (Z.min (i + 10) len - (i + 1)))
         (fun j => link_step nodes i j)).

(** [int(v)] for a cell of a flow record *)
Definition int_of_value (v : value) : outcome Z :=
  match v with
  | VNum (PyInt z) => Ok z
  | VNum (PyFloat f) => int_of_float f
  | VStr s => int s
  end.

(** [flow[k]] *)
Definition cell (flow : gmap string value) (k : string) : outcome value :=
  match flow !! k with
  | Some v => Ok v
  | None => Raise KeyError
  end.

(** Lines 251-259 inside the [try]: the arrow drawn for one flow, if any *)
Definition flow_arrow (nodes : gmap Z node) (flow : gmap string value)
    : outcome (option (Z * Z)) :=
  obind (obind (cell flow "FromNode") int_of_value) (fun from_node =>
  obind (obind (cell flow "ToNode") int_of_value) (fun to_node =>
  Ok (if bool_decide (is_Some (nodes !! from_node)) && bool_decide (is_Some (nodes !! to_node))
      then Some (from_node, to_node) else None))).

(** Lines 248-261: the arrows of the first 20 flows; the bare [except]
    skips a flow whose body raised. *)
Definition flow_arrows (nodes : gmap Z node) (flows : list (gmap string value))
    : list (Z * Z) :=
  concat
    (map (fun flow =>
            match flow_arrow nodes flow with
            | Ok (Some a) => [a]
            | _ => []
            end)
         (firstn 20 flows)).

End Views.

(** * Properties *)

Import Py Stmt.

(** ** The statement monad *)

Section MonadLemmas.
Context {St A L : Type}.
Implicit Types (body : A -> L -> M St L) (s : St) (l : L).

Lemma for_fold_nil body l s : for_fold [] l body s = (s, Ok l).
Proof. reflexivity. Qed.

Lemma for_fold_cons body x xs l s :
  for_fold (x :: xs) l body s =
  match body x l s with
  | (s', Ok l') => for_fold xs l' body s'
  | (s', Raise e) => (s', Raise e)
  end.
Proof. reflexivity. Qed.

(** A loop over [xs ++ ys] runs [ys] from where [xs] ended, unless [xs]
    raised. *)
Lemma for_fold_app body xs ys l s :
  for_fold (xs ++ ys) l body s =
  match for_fold xs l body s with
  | (s', Ok l') => for_fold ys l' body s'
  | (s', Raise e) => (s', Raise e)
  end.
Proof.
  revert l s. induction xs as [|x xs IH]; intros l s; [reflexivity|].
  rewrite <- app_comm_cons, !for_fold_cons.
  destruct (body x l s) as [s' [l'|e]]; [apply IH | reflexivity].
Qed.

(** The turn that raises ends the loop: nothing after it runs. *)
Lemma for_fold_raise body pre bad post l s s1 l1 s2 e :
  for_fold pre l body s = (s1, Ok l1) ->
  body bad l1 s1 = (s2, Raise e) ->
  for_fold (pre ++ bad :: post) l body s = (s2, Raise e).
Proof.
  intros Hpre Hbad. rewrite for_fold_app, Hpre, for_fold_cons, Hbad. reflexivity.
Qed.
End MonadLemmas.

(** ** str methods *)

Lemma startswith_app s p : startswith (p +:+ s) p = true.
Proof.
  induction p as [|a p IH]; [reflexivity|].
  change (String a p +:+ s) with (String a (p +:+ s)).
  cbn [startswith]. rewrite Ascii.eqb_refl. exact IH.
Qed.

Lemma startswith_inv s p : startswith s p = true -> exists r, s = p +:+ r.
Proof.
  revert s. induction p as [|a p IH]; intros s H.
  - exists s. reflexivity.
  - destruct s as [|b s]; [discriminate|]. cbn in H.
    apply andb_true_iff in H as [Hab Hs]. apply Ascii.eqb_eq in Hab. subst b.
    destruct (IH _ Hs) as [r ->]. exists r. reflexivity.
Qed.

(** [startswith] is the prefix test of the raw string. *)
Lemma startswith_spec s p : startswith s p = true <-> exists r, s = p +:+ r.
Proof.
  split; [apply startswith_inv|]. intros [r ->]. apply startswith_app.
Qed.

Lemma contains_char_lstrip c s :
  isspace c = false -> contains_char c (lstrip s) = contains_char c s.
Proof.
  intros Hc. induction s as [|d s IH]; [reflexivity|].
  cbn. destruct (isspace d) eqn:Hd; [|reflexivity].
  rewrite IH. destruct (Ascii.eqb d c) eqn:E; [|reflexivity].
  apply Ascii.eqb_eq in E. congruence.
Qed.

Lemma contains_char_rstrip c s :
  isspace c = false -> contains_char c (rstrip s) = contains_char c s.
Proof.
  intros Hc. induction s as [|d s IH]; [reflexivity|].
  cbn. destruct (rstrip s) as [|e r] eqn:Hr.
  - rewrite <- IH. destruct (isspace d) eqn:Hd; cbn.
    + destruct (Ascii.eqb d c) eqn:E; [|reflexivity].
      apply Ascii.eqb_eq in E. congruence.
    + rewrite orb_false_r. reflexivity.
  - rewrite <- IH. reflexivity.
Qed.

(** Stripping removes white space only, so it keeps every comma. *)
Lemma contains_char_strip c s :
  isspace c = false -> contains_char c (strip s) = contains_char c s.
Proof.
  intros Hc. unfold strip. rewrite contains_char_rstrip, contains_char_lstrip; auto.
Qed.

Lemma split_no_sep sep s : contains_char sep s = false -> split sep s = [s].
Proof.
  induction s as [|c s IH]; [reflexivity|].
  cbn. intros H. apply orb_false_iff in H as [Hc Hs].
  rewrite Hc, (IH Hs). reflexivity.
Qed.

(** Two fields or more need a separator in the string. *)
Lemma split_two_fields sep s f g rest :
  split sep s = f :: g :: rest -> contains_char sep s = true.
Proof.
  intros H. destruct (contains_char sep s) eqn:E; [reflexivity|].
  rewrite (split_no_sep _ _ E) in H. discriminate.
Qed.

Lemma split_cons_other sep c s :
  Ascii.eqb c sep = false ->
  exists f rest, split sep (String c s) = String c f :: rest.
Proof.
  intros H.
  assert (E : split sep (String c s) =
              if Ascii.eqb c sep then EmptyString :: split sep s
              else match split sep s with
                   | f :: fs => String c f :: fs
                   | [] => [String c EmptyString]
                   end) by reflexivity.
  rewrite E, H. destruct (split sep s); eauto.
Qed.

Lemma rstrip_cons_other c s :
  isspace c = false -> exists r, rstrip (String c s) = String c r.
Proof.
  intros H.
  assert (E : rstrip (String c s) =
              match rstrip s with
              | EmptyString => if isspace c then EmptyString else String c EmptyString
              | String d r' => String c (String d r')
              end) by reflexivity.
  rewrite E, H. destruct (rstrip s); eauto.
Qed.

Lemma strip_cons_other c s :
  isspace c = false -> exists r, strip (String c s) = String c r.
Proof.
  intros H. unfold strip. cbn [lstrip]. rewrite H. apply rstrip_cons_other, H.
Qed.

(** A line that begins with a letter keeps it as the first character of its
    first field. *)
Lemma split_strip_first_char sep c r :
  isspace c = false -> Ascii.eqb c sep = false ->
  exists f rest, split sep (strip (String c r)) = String c f :: rest.
Proof.
  intros Hsp Hsep. destruct (strip_cons_other c r Hsp) as [r' ->].
  apply split_cons_other, Hsep.
Qed.

(** [int] rejects a string whose first character is a letter. *)
Lemma rstrip_number_cons_other c s :
  isspace_number c = false -> exists r, rstrip_number (String c s) = String c r.
Proof.
  intros H.
  assert (E : rstrip_number (String c s) =
              match rstrip_number s with
              | EmptyString =>
                  if isspace_number c then EmptyString else String c EmptyString
              | String d r' => String c (String d r')
              end) by reflexivity.
  rewrite E, H. destruct (rstrip_number s); eauto.
Qed.

Lemma strip_number_cons_other c s :
  isspace_number c = false -> exists r, strip_number (String c s) = String c r.
Proof.
  intros H. unfold strip_number. cbn [lstrip_number]. rewrite H.
  apply rstrip_number_cons_other, H.
Qed.

Lemma int_letter_first c r :
  isspace_number c = false -> digit_of c = None ->
  Ascii.eqb c "-" = false -> Ascii.eqb c "+" = false ->
  int (String c r) = Raise ValueError.
Proof.
  intros Hsp Hd Hm Hp. unfold int.
  destruct (strip_number_cons_other c r Hsp) as [r' ->].
  cbn [sign]. rewrite Hm, Hp.
  unfold digitpart, digitpart_from. rewrite Hd. reflexivity.
Qed.

(** The separator controls FS..US end a field for [str.strip] but not for
    [int] and [float]: a field such as "5" followed by FS is stripped to
    "5" by [strip] and refused by both conversions, and a row that holds
    one ends the loop. *)
Lemma conversions_refuse_separator_controls :
  strip (String "5" (String "028" EmptyString)) = "5" /\
  int (String "5" (String "028" EmptyString)) = Raise ValueError /\
  int (String "031" "5") = Raise ValueError /\
  float_of_str (String "1" (String "." (String "0" (String "028" EmptyString))))
    = Raise ValueError /\
  int (String "5" (String "133" EmptyString)) = Ok 5 /\
  float_of_str (String "160" "2.5") = Ok (of_decimal false 25 (-1)) /\
  Visualizer.position_step (String "5" (String "028" ",1,1.0,2.0,x")) true
    Visualizer.init = (Visualizer.init, Raise ValueError) /\
  Framework.dtn_step ("OurDTN,25.0" +:+ String "028" ",14.0,90.0,0.9") true
    Framework.init = (Framework.init, Raise ValueError).
Proof. vm_compute. repeat split. Qed.

(** ** The visualizer's loaders *)

Section VisualizerLoad.
Import Visualizer.
Variable read_csv : string -> outcome (list (gmap string value)).

(** Each loader handles every exception itself. *)
Lemma load_node_positions_returns fs s :
  snd (load_node_positions fs s) = Ok tt.
Proof.
  unfold load_node_positions, try_except, bind, read_if_exists, ret, raise.
  destruct (performance_txt fs) as [| |text]; try reflexivity.
  destruct (for_fold _ _ _ s) as [s' [l|e]]; reflexivity.
Qed.

Lemma load_message_flows_returns fs s :
  snd (load_message_flows read_csv fs s) = Ok tt.
Proof.
  unfold load_message_flows, try_except, bind, lift, modify, ret, raise.
  destruct (flow_txt fs) as [| |text]; try reflexivity.
  destruct (read_csv text); reflexivity.
Qed.

Lemma load_performance_metrics_returns fs s :
  snd (load_performance_metrics fs s) = Ok tt.
Proof.
  unfold load_performance_metrics, try_except, bind, read_if_exists, ret, raise.
  destruct (performance_txt fs) as [| |text]; try reflexivity.
  destruct (for_each _ _ s) as [s' [l|e]]; [destruct l|]; reflexivity.
Qed.

(** So the handler of [load_simulation_data] never runs: the dataset is
    what the three loaders leave. *)
Lemma load_simulation_data_loaders rand fs s :
  load_simulation_data read_csv rand fs s =
  (fst (load_performance_metrics fs
     (fst (load_message_flows read_csv fs
        (fst (load_node_positions fs s))))), Ok tt).
Proof.
  unfold load_simulation_data, try_except, bind.
  pose proof (load_node_positions_returns fs s) as H1.
  destruct (load_node_positions fs s) as [s1 o1]; cbn [fst snd] in *; subst o1.
  pose proof (load_message_flows_returns fs s1) as H2.
  destruct (load_message_flows read_csv fs s1) as [s2 o2]; cbn [fst snd] in *; subst o2.
  pose proof (load_performance_metrics_returns fs s2) as H3.
  destruct (load_performance_metrics fs s2) as [s3 o3]; cbn [fst snd] in *; subst o3.
  reflexivity.
Qed.
End VisualizerLoad.

(** The synthetic generator on a fresh object: 120 nodes, 50 flow events and
    [total_flows = 50], whatever the random draws are. *)
Lemma generate_sample_data_shape (rand : nat -> float) :
  let d := fst (Visualizer.generate_sample_data rand Visualizer.init) in
  size (Visualizer.node_positions d) = 120%nat /\
  length (Visualizer.message_flows d) = 50%nat /\
  Visualizer.performance_data d !! "total_flows" = Some (PyInt 50).
Proof. vm_compute. repeat split. Qed.

(** C1, on the code: with neither trace file present the three loaders do
    nothing and raise nothing, so the synthetic generator is not called and
    the dataset stays as [__init__] made it: no node, no flow event, no
    [total_flows]. *)
Theorem C1_no_files_leaves_dataset_empty :
  forall (read_csv : string -> outcome (list (gmap string Visualizer.value)))
         (rand : nat -> float),
    let d := Visualizer.dataset read_csv rand
               (Visualizer.Files Visualizer.Absent Visualizer.Absent) in
    d = Visualizer.init /\
    size (Visualizer.node_positions d) = 0%nat /\
    length (Visualizer.message_flows d) = 0%nat /\
    Visualizer.performance_data d !! "total_flows" = None.
Proof. intros read_csv rand. vm_compute. repeat split. Qed.

(** C8: the parsing stage is a function of the trace files alone.  The only
    random source of the program, the draws of the synthetic generator, does
    not reach the dataset: two runs on the same files give the same dataset
    whatever the draws are. *)
Theorem C8_dataset_is_a_function_of_the_files :
  forall (read_csv : string -> outcome (list (gmap string Visualizer.value)))
         (fs : Visualizer.files) (rand1 rand2 : nat -> float),
    Visualizer.dataset read_csv rand1 fs = Visualizer.dataset read_csv rand2 fs.
Proof.
  intros read_csv fs rand1 rand2. unfold Visualizer.dataset.
  rewrite !load_simulation_data_loaders. reflexivity.
Qed.

(** ** The NODE_POSITIONS loop of [load_node_positions] *)

Section Positions.
Import Visualizer.
Local Open Scope stmt_scope.

(** What the loop does with a line once the test of line 69 has passed. *)
Lemma position_step_attempt line s :
  contains_char "," line = true ->
  startswith line "NodeID" = false ->
  position_step line true s =
  (let parts := split "," (strip line) in
   if (5 <=? length parts)%nat then node_record parts ;; ret true else ret true) s.
Proof.
  intros Hcomma Hhead. unfold position_step.
  destruct (String.eqb (strip line) "NODE_POSITIONS") eqn:E.
  - apply String.eqb_eq in E.
    rewrite <- (contains_char_strip "," line eq_refl), E in Hcomma. discriminate.
  - rewrite Hcomma, Hhead. reflexivity.
Qed.

(** A line that begins with "NodeID" has no integer in its first field. *)
Lemma header_line_has_no_id line p0 rest :
  startswith line "NodeID" = true ->
  split "," (strip line) = p0 :: rest ->
  int p0 = Raise ValueError.
Proof.
  intros Hhead Hsplit. apply startswith_inv in Hhead as [r ->].
  change ("NodeID" +:+ r) with (String "N" ("odeID" +:+ r)) in Hsplit.
  destruct (split_strip_first_char "," "N" ("odeID" +:+ r) eq_refl eq_refl)
    as (f & rest' & E).
  rewrite E in Hsplit. injection Hsplit as <- _.
  apply int_letter_first; reflexivity.
Qed.

(** A row of five fields or more whose first four convert is stored under
    its id, with [is_mobile = (type < 4)]. *)
Lemma position_step_valid line s p0 p1 p2 p3 p4 rest node_id node_type x y :
  split "," (strip line) = p0 :: p1 :: p2 :: p3 :: p4 :: rest ->
  int p0 = Ok node_id -> int p1 = Ok node_type ->
  float_of_str p2 = Ok x -> float_of_str p3 = Ok y ->
  position_step line true s =
  (set_node_positions
     (insert node_id (Node (PyFloat x) (PyFloat y) node_type (node_type <? 4))) s,
   Ok true).
Proof.
  intros Hsplit H0 H1 H2 H3.
  rewrite position_step_attempt.
  - cbv zeta. rewrite Hsplit.
    unfold node_record, bind, lift, index, obind, modify, ret. cbn.
    rewrite H0, H1, H2, H3. reflexivity.
  - rewrite <- (contains_char_strip "," line eq_refl).
    eapply split_two_fields, Hsplit.
  - destruct (startswith line "NodeID") eqn:E; [|reflexivity].
    rewrite (header_line_has_no_id _ _ _ E Hsplit) in H0. discriminate.
Qed.

(** A line of fewer than five fields is passed over. *)
Lemma position_step_short line s :
  (length (split "," (strip line)) < 5)%nat ->
  position_step line true s = (s, Ok true).
Proof.
  intros Hlen. unfold position_step.
  destruct (String.eqb _ _); [reflexivity|].
  destruct (true && _ && _); [|reflexivity].
  apply Nat.leb_gt in Hlen. rewrite Hlen. reflexivity.
Qed.

(** A turn of the loop that raises has stored nothing. *)
Lemma position_step_raise line sec s s' e :
  position_step line sec s = (s', Raise e) -> s' = s.
Proof.
  unfold position_step, node_record, bind, lift, modify, ret.
  destruct (String.eqb _ _); [intros [= <-]; reflexivity|].
  destruct (sec && _ && _); [|intros [= <-]; reflexivity].
  destruct (5 <=? _)%nat; [|intros [= <-]; reflexivity].
  repeat (destruct (obind _ _); [|intros [= <-]; reflexivity]).
  discriminate.
Qed.

(** No turn clears [position_section]. *)
Lemma position_step_keeps_flag line s s' sec' :
  position_step line true s = (s', Ok sec') -> sec' = true.
Proof.
  unfold position_step, node_record, bind, lift, modify, ret.
  destruct (String.eqb _ _); [intros [= _ <-]; reflexivity|].
  destruct (true && _ && _); [|intros [= _ <-]; reflexivity].
  destruct (5 <=? _)%nat; [|intros [= _ <-]; reflexivity].
  repeat (destruct (obind _ _); [|discriminate]).
  intros [= _ <-]; reflexivity.
Qed.

Lemma positions_loop_keeps_flag lines s s' sec' :
  for_fold lines true position_step s = (s', Ok sec') -> sec' = true.
Proof.
  revert s. induction lines as [|line lines IH]; intros s.
  - intros [= _ <-]. reflexivity.
  - rewrite for_fold_cons.
    destruct (position_step line true s) as [s1 [sec1|e]] eqn:E; [|discriminate].
    apply position_step_keeps_flag in E. subst sec1. apply IH.
Qed.

(** What [load_node_positions] leaves when the file has text: the state the
    loop ended in, whether it finished or was cut short. *)
Lemma load_node_positions_content text flow s :
  load_node_positions (Files (Content text) flow) s =
  (fst (for_fold (split "010" text) false position_step s), Ok tt).
Proof.
  unfold load_node_positions, try_except, bind, read_if_exists, ret. cbn.
  destruct (for_fold _ _ _ s) as [s' [l|e]]; reflexivity.
Qed.

End Positions.

(** ** Claims about the NODE_POSITIONS loop *)

(** C3, as stated, fails: line 71 asks for five fields, so a line of exactly
    four valid fields inside the section produces no node. *)
Lemma C3_four_field_line_gives_no_node :
  let text := "NODE_POSITIONS
5,1,100.0,200.0" in
  let d := fst (Visualizer.load_node_positions
                  (Visualizer.Files (Visualizer.Content text) Visualizer.Absent)
                  Visualizer.init) in
  split "," (strip "5,1,100.0,200.0") = ["5"; "1"; "100.0"; "200.0"] /\
  int "5" = Ok 5 /\ int "1" = Ok 1 /\
  float_of_str "100.0" = Ok (of_Z 100) /\ float_of_str "200.0" = Ok (of_Z 200) /\
  Visualizer.node_positions d !! 5 = None /\
  size (Visualizer.node_positions d) = 0%nat.
Proof. vm_compute. repeat split. Qed.

(** C3, amended: a line inside the NODE_POSITIONS section with at least five
    comma-separated fields whose first four convert (int, int, float, float)
    is stored under its id with exactly those values, further fields
    ignored, and [is_mobile = (type < 4)]; a line of fewer than five
    fields, four included, is passed over whatever it holds; the line
    "5,1,100.0,200.0,extra" gives node 5 with type 1, x = 100.0, y = 200.0,
    is_mobile = true. *)
Theorem C3_five_field_line_gives_node :
  (forall line s p0 p1 p2 p3 p4 rest node_id node_type x y,
     split "," (strip line) = p0 :: p1 :: p2 :: p3 :: p4 :: rest ->
     int p0 = Ok node_id -> int p1 = Ok node_type ->
     float_of_str p2 = Ok x -> float_of_str p3 = Ok y ->
     Visualizer.position_step line true s =
     (Visualizer.set_node_positions
        (insert node_id
           (Visualizer.Node (PyFloat x) (PyFloat y) node_type (node_type <? 4))) s,
      Ok true))
  /\
  (forall line s,
     (length (split "," (strip line)) < 5)%nat ->
     Visualizer.position_step line true s = (s, Ok true))
  /\
  (let text := "NODE_POSITIONS
5,1,100.0,200.0,extra" in
   let d := fst (Visualizer.load_node_positions
                   (Visualizer.Files (Visualizer.Content text) Visualizer.Absent)
                   Visualizer.init) in
   Visualizer.node_positions d !! 5 =
   Some (Visualizer.Node (PyFloat (of_Z 100)) (PyFloat (of_Z 200)) 1 true)).
Proof.
  split; [|split].
  - intros. eapply position_step_valid; eassumption.
  - apply position_step_short.
  - vm_compute. reflexivity.
Qed.

(** The general part of C3 at the line of its example *)
Lemma C3_five_field_line_witness :
  Visualizer.position_step "5,1,100.0,200.0,extra" true Visualizer.init =
  (Visualizer.set_node_positions
     (insert 5 (Visualizer.Node (PyFloat (of_Z 100)) (PyFloat (of_Z 200)) 1 (1 <? 4)))
     Visualizer.init,
   Ok true).
Proof.
  apply (proj1 C3_five_field_line_gives_node "5,1,100.0,200.0,extra" Visualizer.init
           "5" "1" "100.0" "200.0" "extra" [] 5 1 (of_Z 100) (of_Z 200));
    vm_compute; reflexivity.
Defined.

(** C9, as stated, fails: two valid lines carry id 7, a line between them
    fails its conversion and ends the loop, and node 7 keeps the record of
    the earlier line. *)
Lemma C9_earlier_record_survives_failed_line :
  let text := "NODE_POSITIONS
7,1,1.0,2.0,a
x,1,1.0,2.0,a
7,5,3.0,4.0,b" in
  let d := fst (Visualizer.load_node_positions
                  (Visualizer.Files (Visualizer.Content text) Visualizer.Absent)
                  Visualizer.init) in
  split "010" text = ["NODE_POSITIONS"; "7,1,1.0,2.0,a"; "x,1,1.0,2.0,a"; "7,5,3.0,4.0,b"] /\
  fst (Visualizer.position_step "7,1,1.0,2.0,a" true Visualizer.init) =
    Visualizer.set_node_positions
      (insert 7 (Visualizer.Node (PyFloat (of_Z 1)) (PyFloat (of_Z 2)) 1 true))
      Visualizer.init /\
  fst (Visualizer.position_step "7,5,3.0,4.0,b" true Visualizer.init) =
    Visualizer.set_node_positions
      (insert 7 (Visualizer.Node (PyFloat (of_Z 3)) (PyFloat (of_Z 4)) 5 false))
      Visualizer.init /\
  Visualizer.node_positions d !! 7 =
    Some (Visualizer.Node (PyFloat (of_Z 1)) (PyFloat (of_Z 2)) 1 true).
Proof. vm_compute. repeat split. Qed.

(** C9, amended: the node collection holds at most one node per id; when the
    loop reaches a valid line (no earlier line failed a conversion), its
    record replaces whatever record the id had from an earlier line, every
    other id keeps its record, the collection does not grow when the id was
    present, and no error is raised. *)
Theorem C9_later_line_overwrites_same_id :
  forall pre line sec s s1 p0 p1 p2 p3 p4 rest node_id node_type x y,
    for_fold pre sec Visualizer.position_step s = (s1, Ok true) ->
    split "," (strip line) = p0 :: p1 :: p2 :: p3 :: p4 :: rest ->
    int p0 = Ok node_id -> int p1 = Ok node_type ->
    float_of_str p2 = Ok x -> float_of_str p3 = Ok y ->
    exists s2,
      for_fold (pre ++ [line]) sec Visualizer.position_step s = (s2, Ok true) /\
      Visualizer.node_positions s2 !! node_id =
        Some (Visualizer.Node (PyFloat x) (PyFloat y) node_type (node_type <? 4)) /\
      (forall j, j <> node_id ->
         Visualizer.node_positions s2 !! j = Visualizer.node_positions s1 !! j) /\
      (is_Some (Visualizer.node_positions s1 !! node_id) ->
         size (Visualizer.node_positions s2) = size (Visualizer.node_positions s1)) /\
      NoDup (map fst (map_to_list (Visualizer.node_positions s2))).
Proof.
  intros pre line sec s s1 p0 p1 p2 p3 p4 rest node_id node_type x y
         Hpre Hsplit H0 H1 H2 H3.
  eexists. split.
  - rewrite for_fold_app, Hpre, for_fold_cons.
    rewrite (position_step_valid _ _ _ _ _ _ _ _ _ _ _ _ Hsplit H0 H1 H2 H3).
    reflexivity.
  - cbn [Visualizer.set_node_positions Visualizer.node_positions].
    repeat split.
    + apply lookup_insert_eq.
    + intros j Hj. apply lookup_insert_ne. congruence.
    + intros [n Hn]. rewrite <- (insert_delete_id _ _ _ Hn) at 2.
      rewrite <- insert_delete_eq.
      rewrite !map_size_insert_None by apply lookup_delete_eq. reflexivity.
    + apply NoDup_fst_map_to_list.
Qed.

(** C9 at a file whose two data lines both carry id 7 *)
Lemma C9_later_line_overwrites_witness :
  exists s2,
    for_fold (["NODE_POSITIONS"; "7,1,1.0,2.0,a"] ++ ["7,5,3.0,4.0,b"]) false
      Visualizer.position_step Visualizer.init = (s2, Ok true) /\
    Visualizer.node_positions s2 !! 7 =
      Some (Visualizer.Node (PyFloat (of_Z 3)) (PyFloat (of_Z 4)) 5 (5 <? 4)) /\
    (forall j, j <> 7 ->
       Visualizer.node_positions s2 !! j =
       Visualizer.node_positions
         (Visualizer.set_node_positions
            (insert 7 (Visualizer.Node (PyFloat (of_Z 1)) (PyFloat (of_Z 2)) 1 true))
            Visualizer.init) !! j) /\
    (is_Some (Visualizer.node_positions
                (Visualizer.set_node_positions
                   (insert 7 (Visualizer.Node (PyFloat (of_Z 1)) (PyFloat (of_Z 2)) 1 true))
                   Visualizer.init) !! 7) ->
       size (Visualizer.node_positions s2) =
       size (Visualizer.node_positions
               (Visualizer.set_node_positions
                  (insert 7 (Visualizer.Node (PyFloat (of_Z 1)) (PyFloat (of_Z 2)) 1 true))
                  Visualizer.init))) /\
    NoDup (map fst (map_to_list (Visualizer.node_positions s2))).
Proof.
  apply (C9_later_line_overwrites_same_id
           ["NODE_POSITIONS"; "7,1,1.0,2.0,a"] "7,5,3.0,4.0,b" false Visualizer.init
           (Visualizer.set_node_positions
              (insert 7 (Visualizer.Node (PyFloat (of_Z 1)) (PyFloat (of_Z 2)) 1 true))
              Visualizer.init)
           "7" "5" "3.0" "4.0" "b" [] 7 5 (of_Z 3) (of_Z 4));
    vm_compute; reflexivity.
Defined.

(** C10, as stated, fails: the last line below comes after the marker,
    contains a comma, does not start with "NodeID" and is a valid node
    record, yet it is never attempted, because the DTN_METRICS row before it
    was attempted as a node record, failed [int("OurDTN")] and ended the
    loop. *)
Lemma C10_line_after_failed_row_not_attempted :
  let text := "NODE_POSITIONS
DTN_METRICS
OurDTN,25.0,14.0,90.0,0.9
9,1,1.0,2.0,z" in
  let d := fst (Visualizer.load_node_positions
                  (Visualizer.Files (Visualizer.Content text) Visualizer.Absent)
                  Visualizer.init) in
  split "010" text =
    ["NODE_POSITIONS"; "DTN_METRICS"; "OurDTN,25.0,14.0,90.0,0.9"; "9,1,1.0,2.0,z"] /\
  contains_char "," "9,1,1.0,2.0,z" = true /\
  startswith "9,1,1.0,2.0,z" "NodeID" = false /\
  Visualizer.position_step "9,1,1.0,2.0,z" true Visualizer.init =
    (Visualizer.set_node_positions
       (insert 9 (Visualizer.Node (PyFloat (of_Z 1)) (PyFloat (of_Z 2)) 1 true))
       Visualizer.init, Ok true) /\
  Visualizer.node_positions d !! 9 = None.
Proof. vm_compute. repeat split. Qed.

(** C10, amended: once the marker has been seen the loop never clears
    [position_section]; there is no end sentinel, so every later line that
    the loop reaches, contains a comma and does not start with "NodeID" is
    attempted as a node record, lines of later sections included (a
    DTN_METRICS row raises ValueError at [int] of its first field).  The
    loop reaches a line when no line before it failed a conversion. *)
Theorem C10_position_section_never_cleared :
  (forall lines s s' sec',
     for_fold lines true Visualizer.position_step s = (s', Ok sec') -> sec' = true)
  /\
  (forall pre line post s s1 sec1,
     for_fold pre true Visualizer.position_step s = (s1, Ok sec1) ->
     contains_char "," line = true ->
     startswith line "NodeID" = false ->
     for_fold (pre ++ line :: post) true Visualizer.position_step s =
     bind (let parts := split "," (strip line) in
           if (5 <=? length parts)%nat
           then bind (Visualizer.node_record parts) (fun _ => ret true)
           else ret true)
          (fun sec => for_fold post sec Visualizer.position_step) s1)
  /\
  (forall s,
     Visualizer.position_step "OurDTN,25.0,14.0,90.0,0.9" true s = (s, Raise ValueError)).
Proof.
  split; [|split].
  - apply positions_loop_keeps_flag.
  - intros pre line post s s1 sec1 Hpre Hcomma Hhead.
    pose proof (positions_loop_keeps_flag _ _ _ _ Hpre) as ->.
    rewrite for_fold_app, Hpre, for_fold_cons.
    rewrite (position_step_attempt _ _ Hcomma Hhead).
    unfold bind at 3. reflexivity.
  - intros s. reflexivity.
Qed.

(** C10 at a DTN_METRICS row met inside the position section *)
Lemma C10_position_section_witness :
  for_fold (["DTN_METRICS"] ++ "OurDTN,25.0,14.0,90.0,0.9" :: ["9,1,1.0,2.0,z"]) true
    Visualizer.position_step Visualizer.init =
  bind (let parts := split "," (strip "OurDTN,25.0,14.0,90.0,0.9") in
        if (5 <=? length parts)%nat
        then bind (Visualizer.node_record parts) (fun _ => ret true)
        else ret true)
       (fun sec => for_fold ["9,1,1.0,2.0,z"] sec Visualizer.position_step)
       Visualizer.init.
Proof.
  apply (proj1 (proj2 C10_position_section_never_cleared)
           ["DTN_METRICS"] "OurDTN,25.0,14.0,90.0,0.9" ["9,1,1.0,2.0,z"]
           Visualizer.init Visualizer.init true);
    vm_compute; reflexivity.
Defined.

(** ** The loops of [parse_simulation_data] *)

Section Parse.
Import Framework.
Local Open Scope stmt_scope.
Variables np_sin np_cos : float -> float.

(** [use_default_data] overwrites both collections, whatever they held. *)
Lemma use_default_data_result s :
  use_default_data np_sin np_cos s =
  (State default_performance_data (map (default_sample np_sin np_cos) default_times),
   Ok tt).
Proof. reflexivity. Qed.

(** What the metrics loop does with a line once the tests of lines 53-60
    have passed. *)
Lemma dtn_step_attempt line s :
  contains_char "," line = true ->
  startswith (strip line) "NODE_PERFORMANCE" = false ->
  startswith line "Protocol" = false ->
  dtn_step line true s =
  (let parts := split "," (strip line) in
   if (5 <=? length parts)%nat then metrics_record parts ;; ret true else ret true) s.
Proof.
  intros Hcomma Hend Hhead. unfold dtn_step.
  destruct (String.eqb (strip line) "DTN_METRICS") eqn:E.
  - apply String.eqb_eq in E.
    rewrite <- (contains_char_strip "," line eq_refl), E in Hcomma. discriminate.
  - rewrite Hend, Hcomma, Hhead. reflexivity.
Qed.

(** A header line is left alone, whatever its fields hold. *)
Lemma dtn_step_header line s :
  contains_char "," line = true ->
  startswith (strip line) "NODE_PERFORMANCE" = false ->
  startswith line "Protocol" = true ->
  dtn_step line true s = (s, Ok true).
Proof.
  intros Hcomma Hend Hhead. unfold dtn_step.
  destruct (String.eqb (strip line) "DTN_METRICS"); [reflexivity|].
  rewrite Hend, Hcomma, Hhead. reflexivity.
Qed.

Lemma time_series_step_attempt line s :
  contains_char "," line = true ->
  startswith line "Time" = false ->
  time_series_step line true s =
  (let parts := split "," (strip line) in
   if (5 <=? length parts)%nat then sample_record parts ;; ret true else ret true) s.
Proof.
  intros Hcomma Hhead. unfold time_series_step.
  destruct (String.eqb (strip line) "TIME_SERIES_DATA") eqn:E.
  - apply String.eqb_eq in E.
    rewrite <- (contains_char_strip "," line eq_refl), E in Hcomma. discriminate.
  - rewrite Hcomma, Hhead. reflexivity.
Qed.

Lemma time_series_step_header line s :
  startswith line "Time" = true ->
  time_series_step line true s = (s, Ok true).
Proof.
  intros Hhead. unfold time_series_step.
  destruct (String.eqb (strip line) "TIME_SERIES_DATA"); [reflexivity|].
  rewrite Hhead, andb_false_r. reflexivity.
Qed.

(** A metrics row of five fields or more whose fields 1 to 4 convert *)
Lemma dtn_step_valid line s protocol p1 p2 p3 p4 rest delay throughput dr ee :
  startswith (strip line) "NODE_PERFORMANCE" = false ->
  startswith line "Protocol" = false ->
  split "," (strip line) = protocol :: p1 :: p2 :: p3 :: p4 :: rest ->
  float_of_str p1 = Ok delay -> float_of_str p2 = Ok throughput ->
  float_of_str p3 = Ok dr -> float_of_str p4 = Ok ee ->
  dtn_step line true s =
  (set_performance_data
     (insert protocol
        (Metrics (PyFloat delay)
                 (PyFloat (fmul throughput (of_Z 10)))
                 (PyFloat (fmul delay (of_decimal false 8 (-1))))
                 (PyFloat (fsub (of_Z 100) dr))
                 (PyFloat (fsub (of_Z 1) ee))
                 (PyFloat (fmul dr (of_Z 100))))) s,
   Ok true).
Proof.
  intros Hend Hhead Hsplit H1 H2 H3 H4.
  rewrite dtn_step_attempt; auto.
  - cbv zeta. rewrite Hsplit.
    unfold metrics_record, bind, lift, index, obind, modify, ret. cbn.
    rewrite H1, H2, H3, H4. reflexivity.
  - rewrite <- (contains_char_strip "," line eq_refl).
    eapply split_two_fields, Hsplit.
Qed.

(** An exception in either loop leaves [parse_simulation_data] at once. *)
Lemma parse_raises_in_metrics_loop text pre bad post s s1 sec1 s2 e :
  split "010" text = pre ++ bad :: post ->
  for_fold pre false dtn_step s = (s1, Ok sec1) ->
  dtn_step bad sec1 s1 = (s2, Raise e) ->
  parse_simulation_data np_sin np_cos text s = (s2, Raise e).
Proof.
  intros Hsplit Hpre Hbad. unfold parse_simulation_data. cbv zeta.
  rewrite Hsplit. unfold bind at 1.
  rewrite (for_fold_raise _ _ _ _ _ _ _ _ _ _ Hpre Hbad). reflexivity.
Qed.

Lemma parse_raises_in_time_series_loop text pre bad post s s1 sec1 s2 sec2 s3 e :
  split "010" text = pre ++ bad :: post ->
  for_fold (pre ++ bad :: post) false dtn_step s = (s1, Ok sec1) ->
  for_fold pre false time_series_step (set_time_series_data (fun _ => []) s1)
    = (s2, Ok sec2) ->
  time_series_step bad sec2 s2 = (s3, Raise e) ->
  parse_simulation_data np_sin np_cos text s = (s3, Raise e).
Proof.
  intros Hsplit Hmetrics Hpre Hbad. unfold parse_simulation_data. cbv zeta.
  rewrite Hsplit. unfold bind at 1. rewrite Hmetrics.
  unfold bind at 1, modify at 1. unfold bind at 1.
  rewrite (for_fold_raise _ _ _ _ _ _ _ _ _ _ Hpre Hbad). reflexivity.
Qed.

(** The caller answers any exception of the parse with the default data. *)
Lemma load_after_parse_raise text s s' e :
  parse_simulation_data np_sin np_cos text s = (s', Raise e) ->
  load_simulation_data np_sin np_cos (Content text) s =
  (State default_performance_data (map (default_sample np_sin np_cos) default_times),
   Ok tt).
Proof.
  intros H. unfold load_simulation_data, try_except. rewrite H.
  apply use_default_data_result.
Qed.

End Parse.

(** ** Claims about a line that fails a conversion *)

(** A turn of the summary loop that raises has stored nothing. *)
Lemma metrics_step_raise line s s' e :
  Visualizer.metrics_step line s = (s', Raise e) -> s' = s.
Proof.
  unfold Visualizer.metrics_step, bind, lift, modify, ret.
  repeat match goal with
         | |- context [if ?b then _ else _] => destruct b
         | |- context [obind ?a ?f] => destruct (obind a f)
         end;
    first [discriminate | intros [= <-]; reflexivity].
Qed.

(** C2, as stated, fails.  In the node file the line "bad,..." fails [int];
    the well-formed line after it never becomes a node.  In the statistics
    file the row "Epidemic,bad,..." fails [float]; the record already parsed
    for OurDTN (bandwidth 140.0) is replaced by the default one (bandwidth
    14).  Sine and cosine do not enter [performance_data]; the identity
    stands for them here. *)
Lemma C2_bad_line_ends_the_parse :
  let nodes_text := "NODE_POSITIONS
1,0,10.0,20.0,a
bad,0,1.0,2.0,a
3,0,30.0,40.0,a" in
  let stats_text := "DTN_METRICS
OurDTN,25.0,14.0,90.0,0.9
Epidemic,bad,6.0,60.0,0.6" in
  let d := fst (Visualizer.load_node_positions
                  (Visualizer.Files (Visualizer.Content nodes_text) Visualizer.Absent)
                  Visualizer.init) in
  let f := Framework.dataset (fun v => v) (fun v => v) (Framework.Content stats_text) in
  Visualizer.position_step "3,0,30.0,40.0,a" true Visualizer.init =
    (Visualizer.set_node_positions
       (insert 3 (Visualizer.Node (PyFloat (of_Z 30)) (PyFloat (of_Z 40)) 0 true))
       Visualizer.init, Ok true) /\
  Visualizer.node_positions d !! 1 =
    Some (Visualizer.Node (PyFloat (of_Z 10)) (PyFloat (of_Z 20)) 0 true) /\
  Visualizer.node_positions d !! 3 = None /\
  Framework.bandwidth <$>
    (Framework.performance_data
       (fst (for_fold ["DTN_METRICS"; "OurDTN,25.0,14.0,90.0,0.9"] false
               Framework.dtn_step Framework.init)) !! "OurDTN")
    = Some (PyFloat (of_Z 140)) /\
  Framework.bandwidth <$> (Framework.performance_data f !! "OurDTN") = Some (PyInt 14).
Proof. vm_compute. repeat split. Qed.

(** C2, amended: a conversion failure on a line is not caught per line; it
    ends the parse of that file at that line.  In the visualizer's node and
    summary loaders the records stored from the lines before it are kept
    and no later line is parsed.  In the framework's loader the exception
    reaches [load_simulation_data], which replaces the protocol records and
    the time series parsed so far by the default data. *)
Theorem C2_conversion_failure_ends_the_parse :
  (forall text flow pre bad post s s1 sec1 s2 e,
     split "010" text = pre ++ bad :: post ->
     for_fold pre false Visualizer.position_step s = (s1, Ok sec1) ->
     Visualizer.position_step bad sec1 s1 = (s2, Raise e) ->
     Visualizer.load_node_positions
       (Visualizer.Files (Visualizer.Content text) flow) s = (s1, Ok tt))
  /\
  (forall text flow pre bad post s s1 s2 e,
     split "010" text = pre ++ bad :: post ->
     for_each pre Visualizer.metrics_step s = (s1, Ok tt) ->
     Visualizer.metrics_step bad s1 = (s2, Raise e) ->
     Visualizer.load_performance_metrics
       (Visualizer.Files (Visualizer.Content text) flow) s = (s1, Ok tt))
  /\
  (forall np_sin np_cos text pre bad post s s1 sec1 s2 e,
     split "010" text = pre ++ bad :: post ->
     for_fold pre false Framework.dtn_step s = (s1, Ok sec1) ->
     Framework.dtn_step bad sec1 s1 = (s2, Raise e) ->
     Framework.load_simulation_data np_sin np_cos (Framework.Content text) s =
     (Framework.State Framework.default_performance_data
        (map (Framework.default_sample np_sin np_cos) Framework.default_times),
      Ok tt))
  /\
  (forall np_sin np_cos text pre bad post s s1 sec1 s2 sec2 s3 e,
     split "010" text = pre ++ bad :: post ->
     for_fold (pre ++ bad :: post) false Framework.dtn_step s = (s1, Ok sec1) ->
     for_fold pre false Framework.time_series_step
       (Framework.set_time_series_data (fun _ => []) s1) = (s2, Ok sec2) ->
     Framework.time_series_step bad sec2 s2 = (s3, Raise e) ->
     Framework.load_simulation_data np_sin np_cos (Framework.Content text) s =
     (Framework.State Framework.default_performance_data
        (map (Framework.default_sample np_sin np_cos) Framework.default_times),
      Ok tt)).
Proof.
  repeat apply conj.
  - intros text flow pre bad post s s1 sec1 s2 e Hsplit Hpre Hbad.
    rewrite load_node_positions_content, Hsplit.
    rewrite (for_fold_raise _ _ _ _ _ _ _ _ _ _ Hpre Hbad).
    apply position_step_raise in Hbad. subst s2. reflexivity.
  - intros text flow pre bad post s s1 s2 e Hsplit Hpre Hbad.
    unfold Visualizer.load_performance_metrics, try_except, bind,
      Visualizer.read_if_exists, ret.
    cbn [Visualizer.performance_txt]. rewrite Hsplit. unfold for_each.
    rewrite (for_fold_raise (fun x _ => Visualizer.metrics_step x)
               pre bad post tt s s1 tt s2 e Hpre Hbad).
    apply metrics_step_raise in Hbad. subst s2. reflexivity.
  - intros np_sin np_cos text pre bad post s s1 sec1 s2 e Hsplit Hpre Hbad.
    eapply load_after_parse_raise, parse_raises_in_metrics_loop; eassumption.
  - intros np_sin np_cos text pre bad post s s1 sec1 s2 sec2 s3 e Hsplit Hm Hpre Hbad.
    eapply load_after_parse_raise, parse_raises_in_time_series_loop; eassumption.
Qed.

(** C2 at the node file of the counterexample: the dataset is the one the
    lines before the bad line built. *)
Lemma C2_conversion_failure_witness :
  Visualizer.load_node_positions
    (Visualizer.Files
       (Visualizer.Content "NODE_POSITIONS
1,0,10.0,20.0,a
bad,0,1.0,2.0,a
3,0,30.0,40.0,a") Visualizer.Absent) Visualizer.init =
  (Visualizer.set_node_positions
     (insert 1 (Visualizer.Node (PyFloat (of_Z 10)) (PyFloat (of_Z 20)) 0 true))
     Visualizer.init, Ok tt).
Proof.
  apply (proj1 C2_conversion_failure_ends_the_parse _ Visualizer.Absent
           ["NODE_POSITIONS"; "1,0,10.0,20.0,a"] "bad,0,1.0,2.0,a" ["3,0,30.0,40.0,a"]
           Visualizer.init _ true
           (Visualizer.set_node_positions
              (insert 1 (Visualizer.Node (PyFloat (of_Z 10)) (PyFloat (of_Z 20)) 0 true))
              Visualizer.init)
           ValueError);
    vm_compute; reflexivity.
Defined.

(** ** Claims about the DTN_METRICS rows and the header test *)

(** C4, as stated, fails at its own example: [1.0 - 0.9] in binary64 is
    0.09999999999999998, which is below 0.1, so the stored energy of the row
    "OurDTN,25.0,14.0,90.0,0.9" is not 0.1. *)
Lemma C4_energy_of_example_row_is_not_one_tenth :
  let text := "DTN_METRICS
OurDTN,25.0,14.0,90.0,0.9" in
  let d := fst (for_fold (split "010" text) false Framework.dtn_step Framework.init) in
  float_of_str "0.9" = Ok (of_decimal false 9 (-1)) /\
  float_of_str "0.1" = Ok (of_decimal false 1 (-1)) /\
  float_of_str "0.09999999999999998" = Ok (of_decimal false 9999999999999998 (-17)) /\
  Framework.energy <$> (Framework.performance_data d !! "OurDTN") =
    Some (PyFloat (of_decimal false 9999999999999998 (-17))) /\
  flt (of_decimal false 9999999999999998 (-17)) (of_decimal false 1 (-1)) = true /\
  SFeqb (of_decimal false 9999999999999998 (-17)) (of_decimal false 1 (-1)) = false.
Proof. vm_compute. repeat split. Qed.

(** C4, amended: a DTN_METRICS row of at least five fields whose line does
    not begin with "Protocol" (nor, stripped, with "NODE_PERFORMANCE") and
    whose fields 1 to 4 convert is stored under its first field with
    delay = delay, bandwidth = throughput * 10, response = delay * 0.8,
    data_loss = 100 - deliveryRatio, energy = 1.0 - energyEfficiency and
    scalability = deliveryRatio * 100, each computed in binary64.  The row
    "OurDTN,25.0,14.0,90.0,0.9" gives delay 25.0, bandwidth 140.0, response
    20.0, data_loss 10.0, energy 0.09999999999999998, scalability 9000.0. *)
Theorem C4_metrics_row_mapping :
  (forall line s protocol p1 p2 p3 p4 rest delay throughput dr ee,
     startswith (strip line) "NODE_PERFORMANCE" = false ->
     startswith line "Protocol" = false ->
     split "," (strip line) = protocol :: p1 :: p2 :: p3 :: p4 :: rest ->
     float_of_str p1 = Ok delay -> float_of_str p2 = Ok throughput ->
     float_of_str p3 = Ok dr -> float_of_str p4 = Ok ee ->
     Framework.dtn_step line true s =
     (Framework.set_performance_data
        (insert protocol
           (Framework.Metrics
              (PyFloat delay)
              (PyFloat (fmul throughput (of_Z 10)))
              (PyFloat (fmul delay (of_decimal false 8 (-1))))
              (PyFloat (fsub (of_Z 100) dr))
              (PyFloat (fsub (of_Z 1) ee))
              (PyFloat (fmul dr (of_Z 100))))) s,
      Ok true))
  /\
  (forall np_sin np_cos,
     let text := "DTN_METRICS
OurDTN,25.0,14.0,90.0,0.9" in
     Framework.performance_data
       (Framework.dataset np_sin np_cos (Framework.Content text)) !! "OurDTN" =
     Some (Framework.Metrics
             (PyFloat (of_Z 25)) (PyFloat (of_Z 140)) (PyFloat (of_Z 20))
             (PyFloat (of_Z 10))
             (PyFloat (of_decimal false 9999999999999998 (-17)))
             (PyFloat (of_Z 9000)))).
Proof.
  split.
  - intros. eapply dtn_step_valid; eassumption.
  - intros np_sin np_cos. vm_compute. reflexivity.
Qed.

(** The general part of C4 at the row of its example *)
Lemma C4_metrics_row_witness :
  Framework.dtn_step "OurDTN,25.0,14.0,90.0,0.9" true Framework.init =
  (Framework.set_performance_data
     (insert "OurDTN"
        (Framework.Metrics
           (PyFloat (of_Z 25))
           (PyFloat (fmul (of_Z 14) (of_Z 10)))
           (PyFloat (fmul (of_Z 25) (of_decimal false 8 (-1))))
           (PyFloat (fsub (of_Z 100) (of_Z 90)))
           (PyFloat (fsub (of_Z 1) (of_decimal false 9 (-1))))
           (PyFloat (fmul (of_Z 90) (of_Z 100))))) Framework.init,
   Ok true).
Proof.
  apply (proj1 C4_metrics_row_mapping "OurDTN,25.0,14.0,90.0,0.9" Framework.init
           "OurDTN" "25.0" "14.0" "90.0" "0.9" []
           (of_Z 25) (of_Z 14) (of_Z 90) (of_decimal false 9 (-1)));
    vm_compute; reflexivity.
Defined.

(** C7, as stated, fails: the first field of the row below is "ProtocolX",
    not the header word "Protocol", and its other fields convert, yet the
    row is skipped, because line 60 tests whether the line starts with
    "Protocol". *)
Lemma C7_row_starting_with_header_word_is_skipped :
  let text := "DTN_METRICS
ProtocolX,25.0,14.0,90.0,0.9" in
  let d := fst (for_fold (split "010" text) false Framework.dtn_step Framework.init) in
  hd_error (split "," (strip "ProtocolX,25.0,14.0,90.0,0.9")) = Some "ProtocolX" /\
  String.eqb "ProtocolX" "Protocol" = false /\
  snd (Framework.metrics_record (split "," (strip "ProtocolX,25.0,14.0,90.0,0.9"))
         Framework.init) = Ok tt /\
  Framework.performance_data d !! "ProtocolX" = None /\
  size (Framework.performance_data d) = 0%nat.
Proof. vm_compute. repeat split. Qed.

(** C7, amended: within a section, a line that contains a comma is skipped
    as a header line if and only if the raw line starts with the section's
    header word ("NodeID", "Protocol", "Time"), a prefix test on the line
    and not a comparison of its first field; every other such line is split
    on commas and parsed positionally.  A data row whose first field begins
    with the header word, such as a protocol named "ProtocolX", is skipped
    too. *)
Theorem C7_header_test_is_a_prefix_test :
  (forall line word, startswith line word = true <-> exists r, line = word +:+ r)
  /\
  (forall line s,
     contains_char "," line = true ->
     Visualizer.position_step line true s =
     if startswith line "NodeID" then (s, Ok true)
     else bind (let parts := split "," (strip line) in
                if (5 <=? length parts)%nat then Visualizer.node_record parts
                else ret tt) (fun _ => ret true) s)
  /\
  (forall line s,
     contains_char "," line = true ->
     startswith (strip line) "NODE_PERFORMANCE" = false ->
     Framework.dtn_step line true s =
     if startswith line "Protocol" then (s, Ok true)
     else bind (let parts := split "," (strip line) in
                if (5 <=? length parts)%nat then Framework.metrics_record parts
                else ret tt) (fun _ => ret true) s)
  /\
  (forall line s,
     contains_char "," line = true ->
     Framework.time_series_step line true s =
     if startswith line "Time" then (s, Ok true)
     else bind (let parts := split "," (strip line) in
                if (5 <=? length parts)%nat then Framework.sample_record parts
                else ret tt) (fun _ => ret true) s)
  /\
  (forall s,
     Framework.dtn_step "ProtocolX,25.0,14.0,90.0,0.9" true s = (s, Ok true)).
Proof.
  repeat apply conj.
  - intros line word. apply startswith_spec.
  - intros line s Hcomma. destruct (startswith line "NodeID") eqn:Hhead.
    + unfold Visualizer.position_step. rewrite Hhead, andb_false_r.
      destruct (String.eqb _ _) eqn:E; [|reflexivity].
      apply String.eqb_eq in E.
      rewrite <- (contains_char_strip "," line eq_refl), E in Hcomma. discriminate.
    + rewrite (position_step_attempt _ _ Hcomma Hhead). cbv zeta.
      destruct (5 <=? _)%nat; reflexivity.
  - intros line s Hcomma Hend. destruct (startswith line "Protocol") eqn:Hhead.
    + apply dtn_step_header; assumption.
    + rewrite (dtn_step_attempt _ _ Hcomma Hend Hhead). cbv zeta.
      destruct (5 <=? _)%nat; reflexivity.
  - intros line s Hcomma. destruct (startswith line "Time") eqn:Hhead.
    + apply time_series_step_header; assumption.
    + rewrite (time_series_step_attempt _ _ Hcomma Hhead). cbv zeta.
      destruct (5 <=? _)%nat; reflexivity.
  - intros s. reflexivity.
Qed.

(** C7 at the row named "ProtocolX" *)
Lemma C7_header_test_witness :
  Framework.dtn_step "ProtocolX,25.0,14.0,90.0,0.9" true Framework.init =
  if startswith "ProtocolX,25.0,14.0,90.0,0.9" "Protocol" then (Framework.init, Ok true)
  else bind (let parts := split "," (strip "ProtocolX,25.0,14.0,90.0,0.9") in
             if (5 <=? length parts)%nat then Framework.metrics_record parts
             else ret tt) (fun _ => ret true) Framework.init.
Proof.
  apply (proj1 (proj2 (proj2 C7_header_test_is_a_prefix_test))
           "ProtocolX,25.0,14.0,90.0,0.9" Framework.init);
    vm_compute; reflexivity.
Defined.

(** ** binary64 comparisons *)

Lemma flt_fle a b : flt a b = true -> fle a b = true.
Proof.
  unfold flt, fle, SFltb, SFleb. destruct (SFcompare a b) as [[]|]; congruence.
Qed.

Ltac compare_cases :=
  repeat match goal with
         | H : context [Z.compare ?a ?b] |- _ => destruct (Z.compare_spec a b)
         | |- context [Z.compare ?a ?b] => destruct (Z.compare_spec a b)
         | H : context [Pos.compare_cont Eq ?a ?b] |- _ =>
             change (Pos.compare_cont Eq a b) with (Pos.compare a b) in *;
             destruct (Pos.compare_spec a b)
         | |- context [Pos.compare_cont Eq ?a ?b] =>
             change (Pos.compare_cont Eq a b) with (Pos.compare a b) in *;
             destruct (Pos.compare_spec a b)
         end.

(** [d < r1] and [r1 <= r2] give [d < r2]; a NaN makes a premise false. *)
Lemma flt_fle_trans d r1 r2 :
  flt d r1 = true -> fle r1 r2 = true -> flt d r2 = true.
Proof.
  unfold flt, fle, SFltb, SFleb.
  destruct d as [sd|sd| |sd md ed], r1 as [s1|s1| |s1 m1 e1], r2 as [s2|s2| |s2 m2 e2];
    cbn; try discriminate; try reflexivity;
    repeat match goal with b : bool |- _ => destruct b end;
    cbn; try discriminate; try reflexivity;
    intros H1 H2; compare_cases; subst; cbn in *;
    try discriminate; try reflexivity; try lia.
Qed.

(** ** Claims about the radar scores and the coverage grid *)

(** C5: the scalability score [min(100, scalability / 100)] is at most 100
    for every input, the non-negative ones included, and has no lower clamp:
    raw 0 gives 0 (0.0), raw 20000 gives 100, and a negative raw value gives
    a negative score.  Each of the other five scores leaves [0, 100] on some
    input. *)
Theorem C5_scalability_score_is_clamped_above_only :
  (forall data, le (Framework.scalability_score data) (PyInt 100) = true)
  /\
  (forall d b r l e,
     Framework.scalability_score (Framework.Metrics d b r l e (PyInt 0))
       = PyFloat (S754_zero false) /\
     Framework.scalability_score (Framework.Metrics d b r l e (PyFloat (of_Z 0)))
       = PyFloat (of_Z 0) /\
     Framework.scalability_score (Framework.Metrics d b r l e (PyInt 20000))
       = PyInt 100 /\
     Framework.scalability_score (Framework.Metrics d b r l e (PyFloat (of_Z 20000)))
       = PyInt 100 /\
     Framework.scalability_score (Framework.Metrics d b r l e (PyInt (-100)))
       = PyFloat (of_Z (-1)))
  /\
  (let far := Framework.Metrics (PyFloat (of_Z 3000)) (PyFloat (of_Z 140))
                (PyFloat (of_Z 1000)) (PyFloat (of_Z 40))
                (PyFloat (of_decimal false 4 (-1))) (PyFloat (of_Z 9000)) in
   Framework.delay_score far = PyFloat (of_Z (-50)) /\
   Framework.bandwidth_score far = PyFloat (of_Z 140) /\
   Framework.response_score far = PyFloat (of_Z (-100)) /\
   Framework.data_loss_score far = PyFloat (of_Z (-100)) /\
   Framework.energy_score far = PyFloat (of_Z (-300)) /\
   lt (Framework.delay_score far) (PyInt 0) = true /\
   lt (PyInt 100) (Framework.bandwidth_score far) = true /\
   lt (Framework.response_score far) (PyInt 0) = true /\
   lt (Framework.data_loss_score far) (PyInt 0) = true /\
   lt (Framework.energy_score far) (PyInt 0) = true).
Proof.
  split; [|split].
  - intros data. unfold Framework.scalability_score, min, truediv.
    destruct (lt _ (PyInt 100)) eqn:E; [|reflexivity].
    cbn [lt to_float] in E. cbn [le to_float]. apply flt_fle, E.
  - intros d b r l e. vm_compute. repeat split.
  - vm_compute. repeat split.
Qed.

Section Coverage.
Import Visualizer.
Variables x y : float.

(** Line 337-338 for one node *)
Let count (r : float) (coverage : Z) (node_data : node) : Z :=
  if flt (distance x y node_data) r then coverage + 1 else coverage.

Lemma coverage_fold_nonneg r l a :
  0 <= a -> 0 <= fold_left (count r) l a.
Proof.
  revert a. induction l as [|n l IH]; intros a Ha; [exact Ha|].
  cbn [fold_left]. apply IH. unfold count. destruct (flt _ _); lia.
Qed.

Lemma coverage_fold_mono r1 r2 l a b :
  fle r1 r2 = true -> a <= b ->
  fold_left (count r1) l a <= fold_left (count r2) l b.
Proof.
  intros Hr. revert a b. induction l as [|n l IH]; intros a b Hab; [exact Hab|].
  cbn [fold_left]. apply IH. unfold count.
  destruct (flt (distance x y n) r1) eqn:E1.
  - rewrite (flt_fle_trans _ _ _ E1 Hr). lia.
  - destruct (flt (distance x y n) r2); lia.
Qed.

End Coverage.

(** C6: for a fixed node set and any point of the arena, the grid cells
    among them, the coverage count is a non-negative integer, and it does
    not decrease when the range threshold grows. *)
Theorem C6_coverage_nonnegative_and_monotone :
  (forall r nodes x y, 0 <= Visualizer.coverage_at r nodes x y)
  /\
  (forall r1 r2 nodes x y,
     fle r1 r2 = true ->
     Visualizer.coverage_at r1 nodes x y <= Visualizer.coverage_at r2 nodes x y).
Proof.
  split.
  - intros r nodes x y. apply coverage_fold_nonneg. lia.
  - intros r1 r2 nodes x y Hr. apply coverage_fold_mono; [exact Hr | lia].
Qed.

(** C6 at the two range constants of the script, 250 and 300, seen from the
    origin: one node at distance 200, one at distance 260. *)
Lemma C6_coverage_witness :
  let nodes : gmap Z Visualizer.node :=
    <[ 0 := Visualizer.Node (PyInt 0) (PyInt 200) 4 false ]>
    (<[ 1 := Visualizer.Node (PyFloat (of_Z 260)) (PyFloat (of_Z 0)) 1 true ]> ∅) in
  Visualizer.coverage_at Visualizer.communication_range nodes (of_Z 0) (of_Z 0) <=
  Visualizer.coverage_at (of_Z 300) nodes (of_Z 0) (of_Z 0).
Proof.
  apply (proj2 C6_coverage_nonnegative_and_monotone). vm_compute. reflexivity.
Defined.

(** * Further properties of the loaders *)

(** A property of the state that every turn keeps, raising or not, holds
    when the loop stops. *)
Lemma for_fold_invariant {St A L : Type} (P : St -> Prop) (body : A -> L -> M St L) :
  (forall x l s, P s -> P (fst (body x l s))) ->
  forall xs l s, P s -> P (fst (for_fold xs l body s)).
Proof.
  intros Hbody xs. induction xs as [|x xs IH]; intros l s Hs; [exact Hs|].
  rewrite for_fold_cons. specialize (Hbody x l s Hs).
  destruct (body x l s) as [s1 [l1|e]]; cbn [fst] in *; [apply IH, Hbody | exact Hbody].
Qed.

(** A turn of the position loop either leaves the object alone or stores
    one node whose [is_mobile] is [type < 4]. *)
Lemma position_step_effect line sec s :
  fst (Visualizer.position_step line sec s) = s \/
  exists node_id node_type x y,
    fst (Visualizer.position_step line sec s) =
    Visualizer.set_node_positions
      (insert node_id
         (Visualizer.Node (PyFloat x) (PyFloat y) node_type (node_type <? 4))) s.
Proof.
  unfold Visualizer.position_step, Visualizer.node_record, bind, lift, modify, ret.
  destruct (String.eqb _ _); [left; reflexivity|].
  destruct (sec && _ && _); [|left; reflexivity].
  destruct (5 <=? _)%nat; [|left; reflexivity].
  destruct (obind (index _ 0) int) as [node_id|]; [|left; reflexivity].
  destruct (obind (index _ 1) int) as [node_type|]; [|left; reflexivity].
  destruct (obind (index _ 2) float_of_str) as [x|]; [|left; reflexivity].
  destruct (obind (index _ 3) float_of_str) as [y|]; [|left; reflexivity].
  right. exists node_id, node_type, x, y. reflexivity.
Qed.

(** A turn of the summary loop either leaves the object alone or stores one
    of the three summary keys, a float for the two averages and an int for
    the flow count. *)
Lemma metrics_step_effect line s :
  fst (Visualizer.metrics_step line s) = s \/
  (exists v, fst (Visualizer.metrics_step line s) =
             Visualizer.set_performance_data (insert "avg_delay" (PyFloat v)) s) \/
  (exists v, fst (Visualizer.metrics_step line s) =
             Visualizer.set_performance_data (insert "avg_throughput" (PyFloat v)) s) \/
  (exists v, fst (Visualizer.metrics_step line s) =
             Visualizer.set_performance_data (insert "total_flows" (PyInt v)) s).
Proof.
  unfold Visualizer.metrics_step, bind, lift, modify, ret.
  destruct (contains "AverageDelay" line).
  { destruct (obind _ float_of_str) as [v|]; [right; left; eauto | left; reflexivity]. }
  destruct (contains "AverageThroughput" line).
  { destruct (obind _ float_of_str) as [v|]; [right; right; left; eauto | left; reflexivity]. }
  destruct (contains "TotalFlows" line).
  { destruct (obind _ int) as [v|]; [right; right; right; eauto | left; reflexivity]. }
  left; reflexivity.
Qed.

Section LoaderInvariants.
Import Visualizer.
Variable read_csv : string -> outcome (list (gmap string value)).

(** What [load_node_positions] leaves, for every kind of file *)
Lemma load_node_positions_state (P : state -> Prop) fs s :
  P s ->
  (forall line sec s0, P s0 -> P (fst (position_step line sec s0))) ->
  P (fst (load_node_positions fs s)).
Proof.
  intros Hs Hstep. destruct fs as [[| |text] flow].
  - exact Hs.
  - exact Hs.
  - rewrite load_node_positions_content. cbn [fst].
    apply for_fold_invariant; assumption.
Qed.

Lemma load_performance_metrics_state (P : state -> Prop) fs s :
  P s ->
  (forall line s0, P s0 -> P (fst (metrics_step line s0))) ->
  P (fst (load_performance_metrics fs s)).
Proof.
  intros Hs Hstep. destruct fs as [[| |text] flow].
  - exact Hs.
  - exact Hs.
  - unfold load_performance_metrics, try_except, bind, read_if_exists, ret.
    cbn [performance_txt].
    pose proof (for_fold_invariant P (fun x (_ : unit) => metrics_step x)
                  (fun x _ s0 H => Hstep x s0 H) (split "010" text) tt s Hs) as H.
    unfold for_each.
    destruct (for_fold _ _ _ s) as [s' [l|e]]; exact H.
Qed.

Lemma load_message_flows_state fs s :
  fst (load_message_flows read_csv fs s) =
  match flow_txt fs with
  | Content text =>
      match read_csv text with
      | Ok records => set_message_flows (fun _ => records) s
      | Raise _ => s
      end
  | _ => s
  end.
Proof.
  unfold load_message_flows, try_except, bind, lift, modify, ret, raise.
  destruct (flow_txt fs) as [| |text]; try reflexivity.
  destruct (read_csv text); reflexivity.
Qed.

End LoaderInvariants.

Section LoaderProperties.
Import Visualizer.
Variable read_csv : string -> outcome (list (gmap string value)).

Lemma position_step_frame line sec s :
  message_flows (fst (position_step line sec s)) = message_flows s /\
  performance_data (fst (position_step line sec s)) = performance_data s.
Proof.
  destruct (position_step_effect line sec s) as [-> | (i & t & a & b & ->)];
    split; reflexivity.
Qed.

Lemma metrics_step_frame line s :
  node_positions (fst (metrics_step line s)) = node_positions s /\
  message_flows (fst (metrics_step line s)) = message_flows s.
Proof.
  destruct (metrics_step_effect line s) as [-> | [[v ->] | [[v ->] | [v ->]]]];
    split; reflexivity.
Qed.

Lemma loaders_frame :
  forall fs s,
    (message_flows (fst (load_node_positions fs s)) = message_flows s /\
     performance_data (fst (load_node_positions fs s)) = performance_data s) /\
    (node_positions (fst (load_message_flows read_csv fs s)) = node_positions s /\
     performance_data (fst (load_message_flows read_csv fs s)) = performance_data s) /\
    (node_positions (fst (load_performance_metrics fs s)) = node_positions s /\
     message_flows (fst (load_performance_metrics fs s)) = message_flows s).
Proof.
  intros fs s. repeat apply conj.
  - apply (load_node_positions_state (fun s' => message_flows s' = message_flows s));
      [reflexivity|].
    intros line sec s0 H. rewrite <- H. apply position_step_frame.
  - apply (load_node_positions_state (fun s' => performance_data s' = performance_data s));
      [reflexivity|].
    intros line sec s0 H. rewrite <- H. apply position_step_frame.
  - rewrite load_message_flows_state.
    destruct (flow_txt fs) as [| |text]; try reflexivity.
    destruct (read_csv text); reflexivity.
  - rewrite load_message_flows_state.
    destruct (flow_txt fs) as [| |text]; try reflexivity.
    destruct (read_csv text); reflexivity.
  - apply (load_performance_metrics_state (fun s' => node_positions s' = node_positions s));
      [reflexivity|].
    intros line s0 H. rewrite <- H. apply metrics_step_frame.
  - apply (load_performance_metrics_state (fun s' => message_flows s' = message_flows s));
      [reflexivity|].
    intros line s0 H. rewrite <- H. apply metrics_step_frame.
Qed.

(** Each loader writes its own collection and no other: the node loader
    leaves the flows and the summary alone, the flow loader the nodes and
    the summary, the summary loader the nodes and the flows, whatever the
    files hold and whether or not a line fails. *)
Theorem loaders_write_only_their_own_collection :
  forall fs s,
    (message_flows (fst (load_node_positions fs s)) = message_flows s /\
     performance_data (fst (load_node_positions fs s)) = performance_data s) /\
    (node_positions (fst (load_message_flows read_csv fs s)) = node_positions s /\
     performance_data (fst (load_message_flows read_csv fs s)) = performance_data s) /\
    (node_positions (fst (load_performance_metrics fs s)) = node_positions s /\
     message_flows (fst (load_performance_metrics fs s)) = message_flows s).
Proof. exact loaders_frame. Qed.

(** The flow collection of the dataset is what the CSV reader returns for
    the flow file, and empty when that file is missing, unreadable or
    rejected by the reader; the performance file has no say in it. *)
Theorem flows_come_from_the_flow_file_alone :
  forall rand fs,
    message_flows (dataset read_csv rand fs) =
    match flow_txt fs with
    | Content text =>
        match read_csv text with
        | Ok records => records
        | Raise _ => []
        end
    | _ => []
    end.
Proof.
  intros rand fs. unfold dataset. rewrite load_simulation_data_loaders. cbn [fst].
  pose proof (loaders_frame fs) as H.
  destruct (H (fst (load_message_flows read_csv fs (fst (load_node_positions fs init)))))
    as (_ & _ & _ & ->).
  rewrite load_message_flows_state.
  destruct (H init) as ((Hn & _) & _).
  destruct (flow_txt fs) as [| |text]; try exact Hn.
  destruct (read_csv text); [reflexivity | exact Hn].
Qed.

(** The node loader only adds or overwrites: an id held before the load is
    still held after it. *)
Theorem load_node_positions_never_removes_a_node :
  forall fs s,
    dom (node_positions s) ⊆ dom (node_positions (fst (load_node_positions fs s))).
Proof.
  intros fs s.
  apply (load_node_positions_state
           (fun s' => dom (node_positions s) ⊆ dom (node_positions s'))); [done|].
  intros line sec s0 H.
  destruct (position_step_effect line sec s0) as [-> | (i & t & a & b & ->)]; [exact H|].
  cbn [set_node_positions node_positions]. rewrite dom_insert_L. set_solver.
Qed.

(** Every node of the dataset has [is_mobile] equal to [type < 4], for
    every pair of files; so has every node the generator makes. *)
Theorem every_node_is_mobile_iff_type_below_4 :
  forall rand fs,
    map_Forall (fun _ n => is_mobile n = (type n <? 4))
      (node_positions (dataset read_csv rand fs)) /\
    map_Forall (fun _ n => is_mobile n = (type n <? 4))
      (node_positions (fst (generate_sample_data rand init))).
Proof.
  intros rand fs. split.
  - unfold dataset. rewrite load_simulation_data_loaders. cbn [fst].
    pose proof (loaders_frame fs) as H.
    destruct (H (fst (load_message_flows read_csv fs (fst (load_node_positions fs init)))))
      as (_ & _ & -> & _).
    destruct (H (fst (load_node_positions fs init))) as (_ & (-> & _) & _).
    apply (load_node_positions_state
             (fun s' => map_Forall (fun _ n => is_mobile n = (type n <? 4))
                          (node_positions s'))).
    + apply map_Forall_empty.
    + intros line sec s0 H0.
      destruct (position_step_effect line sec s0) as [-> | (i & t & a & b & ->)];
        [exact H0|].
      cbn [set_node_positions node_positions]. apply map_Forall_insert_2; [reflexivity|exact H0].
  - unfold generate_sample_data, bind.
    pose proof (for_fold_invariant
                  (fun s' => map_Forall (fun _ n => is_mobile n = (type n <? 4))
                               (node_positions s'))
                  (sample_node rand)) as H.
    specialize (H (fun i k s0 H0 =>
      ltac:(unfold sample_node, bind, modify, ret;
            destruct (i mod 8 <? 4) eqn:E; cbn [fst set_node_positions node_positions];
            (apply map_Forall_insert_2; [cbn; rewrite E; reflexivity | exact H0])))
      (range 120) 0%nat init (map_Forall_empty _)).
    destruct (for_fold (range 120) 0%nat (sample_node rand) init) as [s1 [k|e]];
      cbn [fst] in *.
    + pose proof (for_fold_invariant
                    (fun s' => node_positions s' = node_positions s1)
                    (fun i (_ : unit) =>
                       modify (set_message_flows (fun fl => fl ++ [sample_flow i])))
                    (fun _ _ _ H0 => H0) (range 50) tt s1 eq_refl) as H2.
      unfold for_each.
      destruct (for_fold (range 50) tt _ s1) as [s2 [u|e]]; cbn [fst] in *.
      * cbn. rewrite H2. exact H.
      * rewrite H2. exact H.
    + exact H.
Qed.

(** The summary of the dataset holds no key but [avg_delay],
    [avg_throughput] and [total_flows]; the two averages are floats and the
    flow count is an int. *)
Theorem summary_holds_three_typed_keys :
  forall rand fs,
    map_Forall
      (fun k v =>
         (k = "avg_delay" /\ exists f, v = PyFloat f) \/
         (k = "avg_throughput" /\ exists f, v = PyFloat f) \/
         (k = "total_flows" /\ exists z, v = PyInt z))
      (performance_data (dataset read_csv rand fs)).
Proof.
  intros rand fs. unfold dataset. rewrite load_simulation_data_loaders. cbn [fst].
  apply load_performance_metrics_state.
  - pose proof (loaders_frame fs) as H.
    destruct (H (fst (load_node_positions fs init))) as (_ & (_ & ->) & _).
    destruct (H init) as ((_ & ->) & _). apply map_Forall_empty.
  - intros line s0 H0.
    destruct (metrics_step_effect line s0) as [-> | [[v ->] | [[v ->] | [v ->]]]];
      [exact H0| | |];
      cbn [set_performance_data performance_data];
      (apply map_Forall_insert_2; [|exact H0]); eauto 6.
Qed.

End LoaderProperties.

(** ** Lines outside a section *)

Lemma position_step_outside line s :
  String.eqb (strip line) "NODE_POSITIONS" = false ->
  Visualizer.position_step line false s = (s, Ok false).
Proof. intros H. unfold Visualizer.position_step. rewrite H. reflexivity. Qed.

(** Lines that come before the first NODE_POSITIONS marker are ignored,
    rows that would be valid nodes included: the loop goes on from the
    marker as if the file started there. *)
Theorem lines_before_the_marker_are_ignored :
  forall pre rest s,
    forallb (fun line => negb (String.eqb (strip line) "NODE_POSITIONS")) pre = true ->
    for_fold (pre ++ rest) false Visualizer.position_step s =
    for_fold rest false Visualizer.position_step s.
Proof.
  intros pre rest s. induction pre as [|line pre IH]; intros H; [reflexivity|].
  cbn [forallb] in H. apply andb_true_iff in H as [Hl Hpre].
  apply negb_true_iff in Hl.
  rewrite <- app_comm_cons, for_fold_cons, (position_step_outside _ _ Hl).
  apply IH, Hpre.
Qed.

(** A valid row in front of the marker gives no node; the row after the
    marker does. *)
Lemma lines_before_the_marker_witness :
  for_fold (["NodeID,Type,X,Y,M"; "5,1,100.0,200.0,extra"]
              ++ ["NODE_POSITIONS"; "6,1,1.0,2.0,x"])
    false Visualizer.position_step Visualizer.init =
  for_fold ["NODE_POSITIONS"; "6,1,1.0,2.0,x"] false Visualizer.position_step
    Visualizer.init.
Proof.
  apply (lines_before_the_marker_are_ignored
           ["NodeID,Type,X,Y,M"; "5,1,100.0,200.0,extra"]
           ["NODE_POSITIONS"; "6,1,1.0,2.0,x"] Visualizer.init).
  vm_compute. reflexivity.
Defined.

(** ** The synthetic generator *)

(** The node the generator stores under [i]: types cycle through 0..7; a
    type below 4 takes the next two random draws as its coordinates, the
    other types sit on the grid [(i // 8 * 250, i % 8 * 200)]. *)
Theorem generated_node_contract :
  forall (rand : nat -> float) (i : Z),
    0 <= i < 120 ->
    Visualizer.node_positions
      (fst (Visualizer.generate_sample_data rand Visualizer.init)) !! i =
    Some (if i mod 8 <? 4
          then Visualizer.Node
                 (PyFloat (rand (Z.to_nat (2 * (4 * (i / 8) + i mod 8)))))
                 (PyFloat (rand (S (Z.to_nat (2 * (4 * (i / 8) + i mod 8))))))
                 (i mod 8) true
          else Visualizer.Node (PyInt (i / 8 * 250)) (PyInt (i mod 8 * 200))
                 (i mod 8) false).
Proof.
  intros rand i Hi.
  assert (Hall :
    map (fun i => Visualizer.node_positions
                    (fst (Visualizer.generate_sample_data rand Visualizer.init)) !! i)
        (Visualizer.range 120) =
    map (fun i => Some (if i mod 8 <? 4
          then Visualizer.Node
                 (PyFloat (rand (Z.to_nat (2 * (4 * (i / 8) + i mod 8)))))
                 (PyFloat (rand (S (Z.to_nat (2 * (4 * (i / 8) + i mod 8))))))
                 (i mod 8) true
          else Visualizer.Node (PyInt (i / 8 * 250)) (PyInt (i mod 8 * 200))
                 (i mod 8) false))
        (Visualizer.range 120)) by (vm_compute; reflexivity).
  apply (proj1 map_ext_in_iff Hall).
  unfold Visualizer.range. apply in_map_iff. exists (Z.to_nat i). split; [lia|].
  apply in_seq. lia.
Qed.

Lemma generated_node_witness :
  Visualizer.node_positions
    (fst (Visualizer.generate_sample_data (fun k => of_Z (Z.of_nat k)) Visualizer.init))
    !! 13 =
  Some (if 13 mod 8 <? 4
        then Visualizer.Node
               (PyFloat (of_Z (Z.of_nat (Z.to_nat (2 * (4 * (13 / 8) + 13 mod 8))))))
               (PyFloat (of_Z (Z.of_nat (S (Z.to_nat (2 * (4 * (13 / 8) + 13 mod 8)))))))
               (13 mod 8) true
        else Visualizer.Node (PyInt (13 / 8 * 250)) (PyInt (13 mod 8 * 200))
               (13 mod 8) false).
Proof.
  apply (generated_node_contract (fun k => of_Z (Z.of_nat k)) 13). lia.
Defined.

(** The node loop of the generator raises nothing and leaves the flows
    alone. *)
Lemma sample_nodes_finish rand l k s :
  exists k',
    snd (for_fold l k (Visualizer.sample_node rand) s) = Ok k' /\
    Visualizer.message_flows (fst (for_fold l k (Visualizer.sample_node rand) s)) =
    Visualizer.message_flows s.
Proof.
  revert k s. induction l as [|i l IH]; intros k s; [eexists; split; reflexivity|].
  rewrite for_fold_cons. unfold Visualizer.sample_node at 1 3, bind, modify, ret.
  destruct (i mod 8 <? 4).
  - destruct (IH (S (S k)) (Visualizer.set_node_positions
        (insert i (Visualizer.Node (PyFloat (rand k)) (PyFloat (rand (S k))) (i mod 8) true))
        s)) as (k' & H1 & H2).
    exists k'. split; [exact H1 | exact H2].
  - destruct (IH k (Visualizer.set_node_positions
        (insert i (Visualizer.Node (PyInt (i / 8 * 250)) (PyInt (i mod 8 * 200))
                     (i mod 8) false)) s)) as (k' & H1 & H2).
    exists k'. split; [exact H1 | exact H2].
Qed.

Lemma sample_flows_append l s :
  for_each l (fun i => modify (Visualizer.set_message_flows
                                 (fun fl => fl ++ [Visualizer.sample_flow i]))) s =
  (Visualizer.set_message_flows (fun fl => fl ++ map Visualizer.sample_flow l) s, Ok tt).
Proof.
  revert s. induction l as [|i l IH]; intros s.
  - destruct s. unfold for_each, Visualizer.set_message_flows, ret. cbn.
    rewrite app_nil_r. reflexivity.
  - unfold for_each in *. rewrite for_fold_cons. unfold modify at 1.
    rewrite IH. destruct s. unfold Visualizer.set_message_flows. cbn.
    rewrite <- app_assoc. reflexivity.
Qed.

(** Called on an object that already holds flows, the generator appends
    its 50 events to them and replaces the summary by the fixed one. *)
Theorem generator_appends_flows_and_replaces_summary :
  forall rand s,
    Visualizer.message_flows (fst (Visualizer.generate_sample_data rand s)) =
      Visualizer.message_flows s ++ map Visualizer.sample_flow (Visualizer.range 50) /\
    Visualizer.performance_data (fst (Visualizer.generate_sample_data rand s)) =
      Visualizer.sample_performance.
Proof.
  intros rand s. unfold Visualizer.generate_sample_data, bind.
  destruct (sample_nodes_finish rand (Visualizer.range 120) 0%nat s) as (k & Hk & Hf).
  destruct (for_fold (Visualizer.range 120) 0%nat (Visualizer.sample_node rand) s)
    as [s1 o]; cbn [fst snd] in *; subst o.
  rewrite sample_flows_append. cbn. rewrite Hf. split; reflexivity.
Qed.

(** ** The coverage grid *)

Lemma coverage_fold_bound r x y (l : list Visualizer.node) a :
  fold_left
    (fun coverage node_data =>
       if flt (Visualizer.distance x y node_data) r then coverage + 1 else coverage)
    l a <= a + Z.of_nat (length l).
Proof.
  revert a. induction l as [|n l IH]; intros a; [cbn; lia|].
  cbn [fold_left length].
  destruct (flt _ _); [specialize (IH (a + 1)) | specialize (IH a)]; lia.
Qed.

(** No cell counts more nodes than the dataset holds, and an empty dataset
    gives 0 everywhere. *)
Theorem coverage_is_at_most_the_node_count :
  forall r nodes x y,
    Visualizer.coverage_at r nodes x y <= Z.of_nat (size nodes) /\
    Visualizer.coverage_at r ∅ x y = 0.
Proof.
  intros r nodes x y. split; [|reflexivity].
  unfold Visualizer.coverage_at.
  etransitivity; [apply coverage_fold_bound|].
  rewrite length_map, length_map_to_list. lia.
Qed.

Lemma fsub_nan_r a : fsub a S754_nan = S754_nan.
Proof. destruct a; reflexivity. Qed.

Lemma fadd_nan_r a : fadd a S754_nan = S754_nan.
Proof. destruct a; reflexivity. Qed.

(** A node with a NaN coordinate, which the loader accepts (the field
    "nan" converts), is within range of no point, whatever the range. *)
Theorem node_with_nan_coordinate_is_never_in_range :
  forall cx cy r node_data,
    to_float (Visualizer.x node_data) = S754_nan \/
    to_float (Visualizer.y node_data) = S754_nan ->
    flt (Visualizer.distance cx cy node_data) r = false.
Proof.
  intros cx cy r n [H|H]; unfold Visualizer.distance; rewrite H, fsub_nan_r.
  - reflexivity.
  - change (fmul S754_nan S754_nan) with S754_nan. rewrite fadd_nan_r. reflexivity.
Qed.

(** The line "3,1,nan,5.0,x" is stored with x = NaN; the node it makes is
    not counted at its own y. *)
Lemma node_with_nan_coordinate_witness :
  float_of_str "nan" = Ok S754_nan /\
  Visualizer.node_positions
    (fst (Visualizer.position_step "3,1,nan,5.0,x" true Visualizer.init)) !! 3 =
    Some (Visualizer.Node (PyFloat S754_nan) (PyFloat (of_Z 5)) 1 true) /\
  flt (Visualizer.distance (of_Z 0) (of_Z 5)
         (Visualizer.Node (PyFloat S754_nan) (PyFloat (of_Z 5)) 1 true))
      Visualizer.communication_range = false.
Proof.
  split; [reflexivity|]. split; [vm_compute; reflexivity|].
  apply (node_with_nan_coordinate_is_never_in_range (of_Z 0) (of_Z 5)
           Visualizer.communication_range
           (Visualizer.Node (PyFloat S754_nan) (PyFloat (of_Z 5)) 1 true)).
  left. reflexivity.
Defined.

Lemma linspace_length start stop num :
  length (Visualizer.linspace start stop num) = num.
Proof.
  unfold Visualizer.linspace, Visualizer.range. rewrite !length_map. apply length_seq.
Qed.


(** ** The topology links and the flow arrows *)

Lemma in_range_step i stop :
  In i (Views.range_step 0 stop 5) -> i mod 5 = 0 /\ 0 <= i < stop.
Proof.
  unfold Views.range_step. intros H. apply in_map_iff in H as (k & <- & Hk).
  apply list_elem_of_In, elem_of_seqZ in Hk.
  Z.div_mod_to_equations. lia.
Qed.

(** A property of the state that every turn over an element of the list
    keeps holds when the loop stops. *)
Lemma for_each_invariant_in {St A : Type} (P : St -> Prop) (body : A -> M St unit) :
  forall xs s,
    (forall x s0, In x xs -> P s0 -> P (fst (body x s0))) ->
    P s -> P (fst (for_each xs body s)).
Proof.
  unfold for_each. intros xs. induction xs as [|x xs IH]; intros s Hbody Hs; [exact Hs|].
  rewrite for_fold_cons.
  pose proof (Hbody x s (or_introl eq_refl) Hs) as Hx.
  destruct (body x s) as [s1 [[]|e]]; cbn [fst] in *; [|exact Hx].
  apply IH; [|exact Hx]. intros y s0 Hy. apply Hbody. right. exact Hy.
Qed.



(** A coordinate difference whose square is out of range ends the loops:
    node 0 is 1e200 away from node 1, the pair (0, 1) raises OverflowError
    and the pair (0, 2), 5 apart, is never tried. *)
Lemma topology_links_stop_at_overflow :
  let nodes : gmap Z Visualizer.node :=
    <[ 0 := Visualizer.Node (PyFloat (of_Z 0)) (PyFloat (of_Z 0)) 1 true ]>
    (<[ 1 := Visualizer.Node (PyFloat (of_decimal false 1 200)) (PyFloat (of_Z 0)) 1 true ]>
    (<[ 2 := Visualizer.Node (PyFloat (of_Z 3)) (PyFloat (of_Z 4)) 1 true ]> ∅)) in
  Views.topology_links nodes [] = ([], Raise OverflowError) /\
  Views.link_step nodes 0 2 [] = ([(0, 2)], Ok tt).
Proof. vm_compute. split; reflexivity. Qed.

Lemma concat_map_short {A B} (f : A -> list B) (l : list A) :
  (forall a, (length (f a) <= 1)%nat) ->
  (length (concat (map f l)) <= length l)%nat.
Proof.
  intros Hf. induction l as [|a l IH]; [cbn; lia|].
  cbn [map concat]. rewrite length_app. cbn [length]. specialize (Hf a). lia.
Qed.

Lemma flow_arrow_endpoints nodes flow a b :
  Views.flow_arrow nodes flow = Ok (Some (a, b)) ->
  is_Some (nodes !! a) /\ is_Some (nodes !! b).
Proof.
  unfold Views.flow_arrow.
  destruct (obind (Views.cell flow "FromNode") Views.int_of_value) as [f|]; [|discriminate].
  destruct (obind (Views.cell flow "ToNode") Views.int_of_value) as [t|]; [|discriminate].
  cbn [obind].
  destruct (bool_decide (is_Some (nodes !! f))) eqn:Ef; [|discriminate].
  destruct (bool_decide (is_Some (nodes !! t))) eqn:Et; [|discriminate].
  cbn. intros [= <- <-].
  apply bool_decide_eq_true in Ef, Et. auto.
Qed.

(** At most 20 arrows are drawn, never more than there are flows, and both
    ends of every arrow are nodes of the dataset: a flow that names an
    unknown node, lacks a column or holds a cell that is no integer adds no
    arrow and stops nothing. *)
Theorem flow_arrows_are_few_and_resolved :
  forall nodes flows,
    (length (Views.flow_arrows nodes flows) <= Nat.min 20 (length flows))%nat /\
    Forall (fun a => is_Some (nodes !! fst a) /\ is_Some (nodes !! snd a))
      (Views.flow_arrows nodes flows).
Proof.
  intros nodes flows. unfold Views.flow_arrows. split.
  - rewrite <- length_firstn. apply concat_map_short.
    intros flow. destruct (Views.flow_arrow nodes flow) as [[a|]|]; cbn; lia.
  - apply Forall_forall. intros [a b] Hin.
    apply list_elem_of_In, in_concat in Hin as (l & Hl & Hin).
    apply in_map_iff in Hl as (flow & <- & _).
    destruct (Views.flow_arrow nodes flow) as [[[a' b']|]|] eqn:E; try destruct Hin.
    + injection H as <- <-. cbn [fst snd]. eapply flow_arrow_endpoints, E.
    + destruct H.
Qed.

(** On the generator's data the first 20 flows all resolve: the arrow of
    flow [i] goes from node [i] to node [i + 60]. *)
Theorem generated_flows_give_20_arrows :
  forall rand,
    let d := fst (Visualizer.generate_sample_data rand Visualizer.init) in
    Views.flow_arrows (Visualizer.node_positions d) (Visualizer.message_flows d) =
    map (fun i => (i, i + 60)) (Visualizer.range 20).
Proof. intros rand. vm_compute. reflexivity. Qed.

(** ** The tallies of the report and the dashboard *)

Lemma count_if_acc (p : Visualizer.node -> bool) l a :
  fold_left (fun n data => if p data then n + 1 else n) l a = a + Views.count_if p l.
Proof.
  unfold Views.count_if. revert a. induction l as [|d l IH]; intros a; [cbn; lia|].
  cbn [fold_left]. rewrite IH, (IH (if p d then 0 + 1 else 0)).
  destruct (p d); lia.
Qed.

Lemma count_if_cons (p : Visualizer.node -> bool) d l :
  Views.count_if p (d :: l) = (if p d then 1 else 0) + Views.count_if p l.
Proof.
  unfold Views.count_if at 1. cbn [fold_left]. rewrite count_if_acc.
  destruct (p d); lia.
Qed.

Lemma count_if_split (p : Visualizer.node -> bool) l :
  Views.count_if p l + Views.count_if (fun d => negb (p d)) l = Z.of_nat (length l) /\
  0 <= Views.count_if p l.
Proof.
  induction l as [|d l [IH1 IH2]]; [split; cbn; lia|].
  rewrite !count_if_cons. cbn [length]. destruct (p d); cbn [negb]; split; lia.
Qed.

(** In the report the mobile and the static count add up to the total, and
    the static count is the one the mobility chart computes as total minus
    mobile. *)
Theorem report_counts_add_up :
  forall nodes,
    let '(total, mobile, static) := Views.report_overview nodes in
    mobile + static = total /\
    0 <= mobile <= total /\
    mobile = Views.mobile_count nodes /\
    static = Views.static_count nodes.
Proof.
  intros nodes. unfold Views.report_overview, Views.static_count, Views.mobile_count.
  pose proof (count_if_split Visualizer.is_mobile (Views.values nodes)) as [H1 H2].
  pose proof (count_if_split (fun d => negb (Visualizer.is_mobile d)) (Views.values nodes))
    as [_ H3].
  unfold Views.values in *. rewrite length_map, length_map_to_list in H1.
  repeat split; lia.
Qed.

(** The types that have a name are 0..7, one name each. *)
Lemma type_name_cases t nm :
  Views.type_name t = Ok nm ->
  0 <= t < 8 /\
  nm = match t with
       | 0 => "Emergency" | 1 => "Civilian" | 2 => "Vehicle" | 3 => "Drone"
       | 4 => "Tower" | 5 => "Gateway" | 6 => "Sensor" | _ => "Relay"
       end.
Proof.
  unfold Views.type_name.
  destruct (Views.node_types !! t) as [info|] eqn:E; [|discriminate].
  intros [= <-]. unfold Views.node_types in E.
  apply elem_of_list_to_map_2 in E.
  repeat (apply elem_of_cons in E as [[= -> ->]|E]; [split; [lia|reflexivity]|]).
  apply elem_of_nil in E. destruct E.
Qed.

Lemma type_name_known t : 0 <= t < 8 -> exists nm, Views.type_name t = Ok nm.
Proof.
  intros H.
  assert (t = 0 \/ t = 1 \/ t = 2 \/ t = 3 \/ t = 4 \/ t = 5 \/ t = 6 \/ t = 7) as Ht by lia.
  repeat (destruct Ht as [->|Ht]; [eexists; reflexivity|]). subst. eexists; reflexivity.
Qed.

Lemma type_name_unknown t : ~ (0 <= t < 8) -> Views.type_name t = Raise KeyError.
Proof.
  intros H. unfold Views.type_name.
  destruct (Views.node_types !! t) as [info|] eqn:E; [|reflexivity].
  assert (Views.type_name t = Ok (Views.name info)) as Hn
    by (unfold Views.type_name; rewrite E; reflexivity).
  apply type_name_cases in Hn as [Hn _]. contradiction.
Qed.

Lemma type_name_inj t1 t2 nm :
  Views.type_name t1 = Ok nm -> Views.type_name t2 = Ok nm -> t1 = t2.
Proof.
  intros H1 H2. apply type_name_cases in H1 as [R1 E1], H2 as [R2 E2].
  assert (t1 = 0 \/ t1 = 1 \/ t1 = 2 \/ t1 = 3 \/ t1 = 4 \/ t1 = 5 \/ t1 = 6 \/ t1 = 7)
    as Ht1 by lia.
  assert (t2 = 0 \/ t2 = 1 \/ t2 = 2 \/ t2 = 3 \/ t2 = 4 \/ t2 = 5 \/ t2 = 6 \/ t2 = 7)
    as Ht2 by lia.
  clear R1 R2.
  repeat (destruct Ht1 as [->|Ht1]); repeat (destruct Ht2 as [->|Ht2]);
    subst; try reflexivity; discriminate.
Qed.

(** The tally loop from a given start *)
Definition tally_loop (l : list Visualizer.node) (start : outcome (gmap string Z))
    : outcome (gmap string Z) :=
  fold_left
    (fun acc data =>
       obind acc (fun counts =>
       obind (Views.type_name (Visualizer.type data))
             (fun type_name => Ok (Views.tally type_name counts))))
    l start.

Lemma tally_loop_raise l e : tally_loop l (Raise e) = Raise e.
Proof. induction l as [|d l IH]; [reflexivity | exact IH]. Qed.

Lemma tally_loop_raises_iff l counts :
  tally_loop l (Ok counts) = Raise KeyError <->
  Exists (fun d => ~ (0 <= Visualizer.type d < 8)) l.
Proof.
  revert counts. induction l as [|d l IH]; intros counts.
  - split; [discriminate | intros H; inversion H].
  - unfold tally_loop. cbn [fold_left obind]. fold (tally_loop l).
    destruct (decide (0 <= Visualizer.type d < 8)) as [Hd|Hd].
    + destruct (type_name_known _ Hd) as [nm ->]. cbn [obind].
      rewrite IH. split; [intros H; right; exact H|].
      intros H. inversion H; subst; [contradiction | assumption].
    + rewrite (type_name_unknown _ Hd). cbn [obind]. rewrite tally_loop_raise.
      split; [intros _; left; exact Hd | reflexivity].
Qed.

Lemma tally_lookup nm' nm counts :
  default 0 (Views.tally nm' counts !! nm) =
  default 0 (counts !! nm) + (if decide (nm' = nm) then 1 else 0).
Proof.
  unfold Views.tally. destruct (decide (nm' = nm)) as [->|Hne].
  - rewrite lookup_insert_eq. reflexivity.
  - rewrite lookup_insert_ne by exact Hne. lia.
Qed.

Lemma tally_loop_counts l start counts t nm :
  tally_loop l (Ok start) = Ok counts ->
  Views.type_name t = Ok nm ->
  default 0 (counts !! nm) =
  default 0 (start !! nm) + Views.count_if (fun d => Visualizer.type d =? t) l.
Proof.
  intros Hloop Hnm. revert start Hloop. induction l as [|d l IH]; intros start Hloop.
  - injection Hloop as <-. cbn. lia.
  - unfold tally_loop in Hloop. cbn [fold_left obind] in Hloop. fold (tally_loop l) in Hloop.
    destruct (Views.type_name (Visualizer.type d)) as [nm'|e] eqn:E; cbn [obind] in Hloop.
    + rewrite (IH _ Hloop), tally_lookup, count_if_cons.
      destruct (decide (nm' = nm)) as [->|Hne].
      * rewrite (type_name_inj _ _ _ E Hnm), Z.eqb_refl. lia.
      * destruct (Visualizer.type d =? t) eqn:Et; [|lia].
        apply Z.eqb_eq in Et. rewrite Et in E. congruence.
    + rewrite tally_loop_raise in Hloop. discriminate.
Qed.

(** The type tally of the dashboard and the report raises KeyError exactly
    when some node has a type outside 0..7, a type the loader accepts. *)
Theorem type_tally_raises_iff_a_type_is_unnamed :
  forall nodes,
    Views.node_type_counts nodes = Raise KeyError <->
    exists node_id data,
      nodes !! node_id = Some data /\ ~ (0 <= Visualizer.type data < 8).
Proof.
  intros nodes. unfold Views.node_type_counts, Views.count_types.
  fold (tally_loop (Views.values nodes) (Ok ∅)).
  rewrite tally_loop_raises_iff, Exists_exists. unfold Views.values. split.
  - intros (d & Hin & Hd). apply list_elem_of_In, in_map_iff in Hin as ([k d'] & <- & Hin).
    apply list_elem_of_In, elem_of_map_to_list in Hin. eauto.
  - intros (k & d & Hk & Hd). exists d. split; [|exact Hd].
    apply list_elem_of_In, in_map_iff. exists (k, d). split; [reflexivity|].
    apply list_elem_of_In, elem_of_map_to_list, Hk.
Qed.

(** When the tally finishes, the count under a type's name is the number of
    nodes of that type. *)
Theorem type_tally_counts_the_nodes_of_each_type :
  forall nodes counts t type_name,
    Views.node_type_counts nodes = Ok counts ->
    Views.type_name t = Ok type_name ->
    default 0 (counts !! type_name) =
    Views.count_if (fun data => Visualizer.type data =? t) (Views.values nodes).
Proof.
  intros nodes counts t nm Hc Hnm.
  unfold Views.node_type_counts, Views.count_types in Hc.
  rewrite (tally_loop_counts _ ∅ counts t nm Hc Hnm), lookup_empty. reflexivity.
Qed.

(** Two towers and a drone *)
Lemma type_tally_counts_witness :
  let nodes : gmap Z Visualizer.node :=
    <[ 4 := Visualizer.Node (PyInt 0) (PyInt 800) 4 false ]>
    (<[ 12 := Visualizer.Node (PyInt 250) (PyInt 800) 4 false ]>
    (<[ 3 := Visualizer.Node (PyFloat (of_Z 1)) (PyFloat (of_Z 2)) 3 true ]> ∅)) in
  default 0 ((<[ "Tower" := 2 ]> (<[ "Drone" := 1 ]> ∅) : gmap string Z) !! "Tower") =
  Views.count_if (fun data => Visualizer.type data =? 4) (Views.values nodes).
Proof.
  apply (type_tally_counts_the_nodes_of_each_type
           (<[ 4 := Visualizer.Node (PyInt 0) (PyInt 800) 4 false ]>
            (<[ 12 := Visualizer.Node (PyInt 250) (PyInt 800) 4 false ]>
            (<[ 3 := Visualizer.Node (PyFloat (of_Z 1)) (PyFloat (of_Z 2)) 3 true ]> ∅)))
           (<[ "Tower" := 2 ]> (<[ "Drone" := 1 ]> ∅)) 4 "Tower");
    vm_compute; reflexivity.
Defined.

(** A bar of the dashboard whose key is missing from the summary shows the
    value the generator would have stored: the three bars are those of the
    summary completed by the generator's. *)
Theorem dashboard_defaults_are_the_generator_values :
  forall perf,
    Views.dashboard_values perf =
    Views.dashboard_values (perf ∪ Visualizer.sample_performance) /\
    Views.dashboard_values ∅ =
    [ PyFloat (of_decimal false 452 (-1)); PyFloat (of_decimal false 1258 (-1)); PyInt 50 ].
Proof.
  intros perf. split; [|reflexivity].
  unfold Views.dashboard_values. rewrite !lookup_union.
  destruct (perf !! "avg_delay"), (perf !! "avg_throughput"), (perf !! "total_flows");
    reflexivity.
Qed.

(** * Further properties of the statistics loader *)

Lemma dtn_step_effect line sec s :
  fst (Framework.dtn_step line sec s) = s \/
  exists protocol m,
    fst (Framework.dtn_step line sec s) =
    Framework.set_performance_data (insert protocol m) s.
Proof.
  unfold Framework.dtn_step, Framework.metrics_record, bind, lift, modify, ret.
  destruct (String.eqb _ _); [left; reflexivity|].
  destruct (startswith (strip line) _); [left; reflexivity|].
  destruct (sec && _ && _); [|left; reflexivity].
  destruct (5 <=? _)%nat; [|left; reflexivity].
  destruct (index _ 0) as [protocol|]; [|left; reflexivity].
  destruct (obind (index _ 1) float_of_str) as [d|]; [|left; reflexivity].
  destruct (obind (index _ 2) float_of_str) as [t|]; [|left; reflexivity].
  destruct (obind (index _ 3) float_of_str) as [r|]; [|left; reflexivity].
  destruct (obind (index _ 4) float_of_str) as [e|]; [|left; reflexivity].
  right. eexists _, _. reflexivity.
Qed.

Lemma time_series_step_effect line sec s :
  fst (Framework.time_series_step line sec s) = s \/
  exists smp,
    fst (Framework.time_series_step line sec s) =
    Framework.set_time_series_data (fun ts => ts ++ [smp]) s.
Proof.
  unfold Framework.time_series_step, Framework.sample_record, bind, lift, modify, ret.
  destruct (String.eqb _ _); [left; reflexivity|].
  destruct (sec && _ && _); [|left; reflexivity].
  destruct (5 <=? _)%nat; [|left; reflexivity].
  destruct (obind (index _ 0) float_of_str) as [t|]; [|left; reflexivity].
  destruct (obind (index _ 1) float_of_str) as [d|]; [|left; reflexivity].
  destruct (obind (index _ 2) float_of_str) as [th|]; [|left; reflexivity].
  destruct (obind (index _ 3) float_of_str) as [p|]; [|left; reflexivity].
  destruct (obind (obind (index _ 4) float_of_str) int_of_float) as [a|];
    [|left; reflexivity].
  right. eexists. reflexivity.
Qed.

(** The time-series loop leaves the protocol records as the metrics loop
    made them. *)
Lemma time_series_loop_frame lines sec s :
  Framework.performance_data (fst (for_fold lines sec Framework.time_series_step s)) =
  Framework.performance_data s.
Proof.
  apply (for_fold_invariant
           (fun s' => Framework.performance_data s' = Framework.performance_data s));
    [|reflexivity].
  intros line l s0 H. rewrite <- H.
  destruct (time_series_step_effect line l s0) as [-> | [smp ->]]; reflexivity.
Qed.

Section Statistics.
Import Framework.
Variables np_sin np_cos : float -> float.

(** [parse_simulation_data] spelled out: the two loops in turn, then the
    test of line 97. *)
Lemma parse_simulation_data_unfold text s :
  parse_simulation_data np_sin np_cos text s =
  match for_fold (split "010" text) false dtn_step s with
  | (s1, Raise e) => (s1, Raise e)
  | (s1, Ok _) =>
      match for_fold (split "010" text) false time_series_step
              (set_time_series_data (fun _ => []) s1) with
      | (s2, Raise e) => (s2, Raise e)
      | (s2, Ok _) =>
          if decide (performance_data s2 = ∅) then use_default_data np_sin np_cos s2
          else (s2, Ok tt)
      end
  end.
Proof.
  unfold parse_simulation_data, bind, modify, get. cbv zeta.
  destruct (for_fold _ false dtn_step s) as [s1 [l1|e1]]; [|reflexivity].
  destruct (for_fold _ false time_series_step _) as [s2 [l2|e2]]; [|reflexivity].
  destruct (decide (performance_data s2 = ∅)); reflexivity.
Qed.

Lemma default_data_has_OurDTN :
  is_Some (default_performance_data !! "OurDTN").
Proof. eexists. reflexivity. Qed.

Lemma dataset_cases stats_txt :
  dataset np_sin np_cos stats_txt =
    State default_performance_data (map (default_sample np_sin np_cos) default_times) \/
  performance_data (dataset np_sin np_cos stats_txt) <> ∅.
Proof.
  unfold dataset, load_simulation_data, try_except.
  destruct stats_txt as [| |text]; [left; reflexivity | left; reflexivity |].
  rewrite parse_simulation_data_unfold.
  destruct (for_fold _ false dtn_step init) as [s1 [l1|e1]]; [|left; reflexivity].
  destruct (for_fold _ false time_series_step _) as [s2 [l2|e2]]; [|left; reflexivity].
  destruct (decide (performance_data s2 = ∅)) as [He|Hne]; [left; reflexivity|].
  right. exact Hne.
Qed.

(** Whatever the statistics file is (missing, unreadable, empty, broken
    or well formed), the dataset holds at least one protocol record. *)
Theorem dataset_always_has_a_protocol :
  forall stats_txt,
    exists protocol m,
      performance_data (dataset np_sin np_cos stats_txt) !! protocol = Some m.
Proof.
  intros stats_txt. destruct (dataset_cases stats_txt) as [-> | Hne].
  - destruct default_data_has_OurDTN as [m Hm]. exists "OurDTN", m. exact Hm.
  - destruct (map_choose _ Hne) as (p & m & Hm). eauto.
Qed.

(** A file whose metrics loop stores no protocol gets the default data in
    full: the samples parsed from its TIME_SERIES_DATA section are replaced
    by the 20 default samples. *)
Theorem file_without_protocol_rows_loses_its_time_series :
  forall text,
    performance_data (fst (for_fold (split "010" text) false dtn_step init)) = ∅ ->
    dataset np_sin np_cos (Content text) =
    State default_performance_data (map (default_sample np_sin np_cos) default_times).
Proof.
  intros text H. unfold dataset, load_simulation_data, try_except.
  rewrite parse_simulation_data_unfold.
  destruct (for_fold _ false dtn_step init) as [s1 [l1|e1]]; [|reflexivity].
  cbn [fst] in H.
  pose proof (time_series_loop_frame (split "010" text) false
                (set_time_series_data (fun _ => []) s1)) as Hf.
  destruct (for_fold _ false time_series_step _) as [s2 [l2|e2]]; [|reflexivity].
  cbn [fst] in Hf. cbn [set_time_series_data performance_data] in Hf.
  destruct (decide (performance_data s2 = ∅)) as [He|Hne]; [reflexivity|].
  congruence.
Qed.

(** When no line fails and the metrics loop stores a protocol, the dataset
    is what the two loops parsed: the protocol records of the first and
    the samples of the second, with no default in it. *)
Theorem parsed_file_is_kept_as_parsed :
  forall text s1 sec1 s2 sec2 protocol m,
    for_fold (split "010" text) false dtn_step init = (s1, Ok sec1) ->
    for_fold (split "010" text) false time_series_step
      (set_time_series_data (fun _ => []) s1) = (s2, Ok sec2) ->
    performance_data s1 !! protocol = Some m ->
    dataset np_sin np_cos (Content text) = s2 /\
    performance_data s2 = performance_data s1.
Proof.
  intros text s1 sec1 s2 sec2 protocol m H1 H2 Hp.
  pose proof (time_series_loop_frame (split "010" text) false
                (set_time_series_data (fun _ => []) s1)) as Hf.
  rewrite H2 in Hf. cbn [fst set_time_series_data performance_data] in Hf.
  split; [|exact Hf].
  unfold dataset, load_simulation_data, try_except.
  rewrite parse_simulation_data_unfold, H1, H2.
  destruct (decide (performance_data s2 = ∅)) as [He|Hne]; [|reflexivity].
  rewrite Hf in He. rewrite He, lookup_empty in Hp. discriminate.
Qed.

End Statistics.

(** A file with three samples and no protocol row *)
Lemma file_without_protocol_rows_witness :
  Framework.dataset (fun v => v) (fun v => v)
    (Framework.Content "TIME_SERIES_DATA
Time,Delay,Throughput,Loss,Nodes
0.0,30.0,8.0,20.0,40
30.0,31.0,8.5,21.0,41
60.0,32.0,9.0,22.0,42") =
  Framework.State Framework.default_performance_data
    (map (Framework.default_sample (fun v => v) (fun v => v)) Framework.default_times).
Proof.
  apply (file_without_protocol_rows_loses_its_time_series (fun v => v) (fun v => v)).
  vm_compute. reflexivity.
Defined.

(** A file with one protocol row and one sample *)
Lemma parsed_file_witness :
  let text := "DTN_METRICS
OurDTN,25.0,14.0,90.0,0.9
TIME_SERIES_DATA
0.0,30.0,8.0,20.0,40.7" in
  let s1 := fst (for_fold (split "010" text) false Framework.dtn_step Framework.init) in
  let s2 := fst (for_fold (split "010" text) false Framework.time_series_step
                   (Framework.set_time_series_data (fun _ => []) s1)) in
  Framework.dataset (fun v => v) (fun v => v) (Framework.Content text) = s2 /\
  Framework.performance_data s2 = Framework.performance_data s1.
Proof.
  cbv zeta.
  eapply (parsed_file_is_kept_as_parsed (fun v => v) (fun v => v) _ _ true _ true "OurDTN");
    vm_compute; reflexivity.
Defined.

(** The radar chart, like every chart that walks the four fixed protocol
    names, raises KeyError exactly when the dataset lacks one of them; when
    it finishes it has one row of six scores per name, in the fixed order. *)
Theorem radar_chart_needs_all_four_protocols :
  forall s,
    (Framework.radar_chart s = Raise KeyError <->
     exists protocol,
       In protocol Framework.protocols /\
       Framework.performance_data s !! protocol = None) /\
    (forall rows,
       Framework.radar_chart s = Ok rows ->
       map fst rows = Framework.protocols /\
       Forall (fun row => length (snd row) = 6%nat) rows).
Proof.
  intros s. unfold Framework.radar_chart, Framework.protocols. cbn [fold_right].
  destruct (Framework.performance_data s !! "OurDTN") eqn:E1;
  destruct (Framework.performance_data s !! "Epidemic") eqn:E2;
  destruct (Framework.performance_data s !! "PROPHET") eqn:E3;
  destruct (Framework.performance_data s !! "SprayAndWait") eqn:E4;
  cbn [obind]; split;
    try (split; [discriminate|];
         intros (p & Hin & Hp); cbn in Hin;
         destruct Hin as [<-|[<-|[<-|[<-|[]]]]]; congruence);
    try (split; [intros _|reflexivity]; eexists; split; [|eassumption]; cbn; tauto);
    try discriminate.
  intros rows [= <-]. split; [reflexivity|]. repeat constructor.
Qed.

(** ** A header line that does not start in the first column *)

Lemma lstrip_idempotent s : lstrip (lstrip s) = lstrip s.
Proof.
  induction s as [|c s IH]; [reflexivity|].
  cbn [lstrip]. destruct (isspace c) eqn:E; [exact IH|].
  cbn [lstrip]. rewrite E. reflexivity.
Qed.

(** The header test looks at the raw line and the fields come from the
    stripped one: a NODE_POSITIONS header of five columns that is preceded
    by white space is not skipped, its first field fails [int], and the
    loop ends there with ValueError. *)
Theorem indented_header_line_ends_the_parse :
  forall line s,
    startswith line "NodeID" = false ->
    startswith (lstrip line) "NodeID" = true ->
    (5 <= length (split "," (strip line)))%nat ->
    Visualizer.position_step line true s = (s, Raise ValueError).
Proof.
  intros line s Hraw Hstripped Hlen.
  destruct (split "," (strip line)) as [|p0 [|p1 rest]] eqn:Hsplit;
    [cbn in Hlen; lia | cbn in Hlen; lia |].
  assert (Hint : int p0 = Raise ValueError).
  { apply (header_line_has_no_id (lstrip line) p0 (p1 :: rest) Hstripped).
    unfold strip in *. rewrite lstrip_idempotent. exact Hsplit. }
  rewrite position_step_attempt; [| |exact Hraw].
  - cbv zeta. rewrite Hsplit. apply Nat.leb_le in Hlen. rewrite Hlen.
    unfold Visualizer.node_record, bind, lift, index, obind. cbn [nth_error].
    rewrite Hint. reflexivity.
  - rewrite <- (contains_char_strip "," line eq_refl).
    eapply split_two_fields, Hsplit.
Qed.

Lemma indented_header_line_witness :
  Visualizer.position_step "  NodeID,Type,X,Y,Mobile" true Visualizer.init =
  (Visualizer.init, Raise ValueError).
Proof.
  apply (indented_header_line_ends_the_parse "  NodeID,Type,X,Y,Mobile" Visualizer.init);
    vm_compute; reflexivity.
Defined.
